(** * A shallow embedding of the analysis core of pyqt-journal-times

    Sources: [src/source/tools.py] ([calc_color_map], [find_tags],
    [str_to_date], [extract_json]) and [src/source/graph.py]
    ([DotPlot.__init__], [DotPlot.parse_entries], [add_dot_legend],
    [Histogram.__init__], [Histogram.parse_entries],
    [Histogram.gen_hour_histogram_data], [plot_histogram], and the axis
    limits of [format_dot_y_axis] and [format_hist_x_axis]).

    Conventions of the model.
    - A Python exception is [None] in an [option] result.
    - A naive [datetime] is the integer number of seconds since
      1970-01-01T00:00:00 of its wall-clock reading (proleptic Gregorian,
      as Python's [datetime]).
    - A matplotlib day number [dates.date2num x] is kept scaled by 86400,
      i.e. as the same integer count of seconds; [int(x)] on a day number is
      [Z.quot x 86400 * 86400] and [x % 1] is [Z.modulo x 86400].  Entries
      carry whole seconds, and [num2date] rounds to the microsecond, so the
      float round trip recovers them exactly.
    - Python [str] comparison is by code points; strings are [String.string]
      compared bytewise, which for UTF-8 text is the same order. *)

From Stdlib Require Import ZArith List String Ascii Bool Lia QArith.
From Stdlib Require Import Sorting.Sorted Sorting.Permutation.
Import ListNotations.
Open Scope Z_scope.
Set Warnings "-register-all".


(* ------------------------------------------------------------------ *)
(** ** Calendar arithmetic of [datetime] *)

Definition is_leap (y : Z) : bool :=
  (y mod 4 =? 0) && (negb (y mod 100 =? 0) || (y mod 400 =? 0)).

Definition days_in_month (y m : Z) : Z :=
  if m =? 2 then (if is_leap y then 29 else 28)
  else if (m =? 4) || (m =? 6) || (m =? 9) || (m =? 11) then 30
  else 31.

(** Days from 1970-01-01 to [y]-[m]-[d] in the proleptic Gregorian calendar. *)
Definition days_from_civil (y m d : Z) : Z :=
  let y' := if m <=? 2 then y - 1 else y in
  let era := y' / 400 in
  let yoe := y' - era * 400 in
  let mp := (m + 9) mod 12 in
  let doy := (153 * mp + 2) / 5 + d - 1 in
  let doe := yoe * 365 + yoe / 4 - yoe / 100 + doy in
  era * 146097 + doe - 719468.

Definition fields := (Z * Z * Z * Z * Z * Z)%type.

(** The naive datetime [datetime(y, m, d, H, M, S)] as seconds. *)
Definition to_seconds (v : fields) : Z :=
  let '(y, m, d, hh, mm, ss) := v in
  days_from_civil y m d * 86400 + hh * 3600 + mm * 60 + ss.

(** [datetime.hour] of a naive datetime. *)
Definition hour_of (t : Z) : Z := (t mod 86400) / 3600.

(** [date2num(dt.date())]: midnight of the datetime's day. *)
Definition date_part (t : Z) : Z := t - t mod 86400.

(* ------------------------------------------------------------------ *)
(** ** [datetime.strptime(date_str, "%Y-%m-%dT%H:%M:%SZ")]

    CPython's [_strptime] turns the format into the regular expression
    [(?P<Y>\d\d\d\d)-(?P<m>1[0-2]|0[1-9]|[1-9])-(?P<d>3[0-1]|[1-2]\d|0[1-9]|[1-9]| [1-9])T(?P<H>2[0-3]|[0-1]\d|\d):(?P<M>[0-5]\d|\d):(?P<S>6[0-1]|[0-5]\d|\d)Z],
    compiled with [re.IGNORECASE], calls [match] on the input, raises
    [ValueError] when there is no match or when unconverted data remains
    after it, and then builds the [datetime], which raises [ValueError] for
    year 0, a day past the end of the month, or second 60 and 61.
    The regular expression is modelled as a backtracking matcher in
    continuation-passing style: an alternative is tried only when the
    continuation fails after the previous one, which is the priority order
    of Python's [re]. Input strings are ASCII here. *)

Definition match_result := (fields * list ascii)%type.

Definition parser (A : Type) :=
  list ascii -> (A -> list ascii -> option match_result) -> option match_result.

Definition p_ret {A} (a : A) : parser A := fun s k => k a s.

Definition p_bind {A B} (p : parser A) (f : A -> parser B) : parser B :=
  fun s k => p s (fun a s' => f a s' k).

Definition p_alt {A} (p q : parser A) : parser A :=
  fun s k => match p s k with Some r => Some r | None => q s k end.

Definition ascii_lower (c : ascii) : ascii :=
  let n := nat_of_ascii c in
  if (65 <=? n)%nat && (n <=? 90)%nat then ascii_of_nat (n + 32) else c.

(** A literal character of the pattern, matched ignoring case. *)
Definition p_lit (c : ascii) : parser unit :=
  fun s k => match s with
             | c' :: s' =>
                 if Ascii.eqb (ascii_lower c) (ascii_lower c') then k tt s'
                 else None
             | [] => None
             end.

Definition digit_val (c : ascii) : option Z :=
  let n := nat_of_ascii c in
  if (48 <=? n)%nat && (n <=? 57)%nat then Some (Z.of_nat n - 48) else None.

(** A character class [[lo-hi]] of digits; [\d] is [[0-9]]. *)
Definition p_digit_in (lo hi : Z) : parser Z :=
  fun s k => match s with
             | c :: s' =>
                 match digit_val c with
                 | Some d => if (lo <=? d) && (d <=? hi) then k d s' else None
                 | None => None
                 end
             | [] => None
             end.

Declare Scope parser_scope.
Notation "x <- p ;; q" := (p_bind p (fun x => q))
  (at level 61, p at next level, right associativity) : parser_scope.
Notation "p ;;; q" := (p_bind p (fun _ => q))
  (at level 61, right associativity) : parser_scope.
Notation "p <|> q" := (p_alt p q) (at level 62, right associativity) : parser_scope.
Open Scope parser_scope.

Definition two (lo hi : Z) (first : Z) : parser Z :=
  d <- p_digit_in lo hi ;; p_ret (10 * first + d).

(** [\d\d\d\d] *)
Definition re_Y : parser Z :=
  a <- p_digit_in 0 9 ;; b <- p_digit_in 0 9 ;;
  c <- p_digit_in 0 9 ;; d <- p_digit_in 0 9 ;;
  p_ret (1000 * a + 100 * b + 10 * c + d).

(** [1[0-2]|0[1-9]|[1-9]] *)
Definition re_m : parser Z :=
  (p_lit "1" ;;; two 0 2 1)
  <|> (p_lit "0" ;;; two 1 9 0)
  <|> p_digit_in 1 9.

(** [3[0-1]|[1-2]\d|0[1-9]|[1-9]| [1-9]] *)
Definition re_d : parser Z :=
  (p_lit "3" ;;; two 0 1 3)
  <|> (a <- p_digit_in 1 2 ;; two 0 9 a)
  <|> (p_lit "0" ;;; two 1 9 0)
  <|> p_digit_in 1 9
  <|> (p_lit " " ;;; p_digit_in 1 9).

(** [2[0-3]|[0-1]\d|\d] *)
Definition re_H : parser Z :=
  (p_lit "2" ;;; two 0 3 2)
  <|> (a <- p_digit_in 0 1 ;; two 0 9 a)
  <|> p_digit_in 0 9.

(** [[0-5]\d|\d] *)
Definition re_M : parser Z :=
  (a <- p_digit_in 0 5 ;; two 0 9 a)
  <|> p_digit_in 0 9.

(** [6[0-1]|[0-5]\d|\d] *)
Definition re_S : parser Z :=
  (p_lit "6" ;;; two 0 1 6)
  <|> (a <- p_digit_in 0 5 ;; two 0 9 a)
  <|> p_digit_in 0 9.

Definition re_timestamp : parser fields :=
  y <- re_Y ;; p_lit "-" ;;; m <- re_m ;; p_lit "-" ;;; d <- re_d ;;
  p_lit "T" ;;; hh <- re_H ;; p_lit ":" ;;; mm <- re_M ;; p_lit ":" ;;;
  ss <- re_S ;; p_lit "Z" ;;; p_ret (y, m, d, hh, mm, ss).

(** The [datetime] constructor's range checks (months and hours are
    already bounded by the expression). *)
Definition datetime_valid (v : fields) : bool :=
  let '(y, m, d, hh, mm, ss) := v in
  (1 <=? y) && (d <=? days_in_month y m) && (ss <=? 59).

Definition strptime (s : string) : option Z :=
  match re_timestamp (list_ascii_of_string s) (fun v rest => Some (v, rest)) with
  | Some (v, []) => if datetime_valid v then Some (to_seconds v) else None
  | _ => None
  end.

(* ------------------------------------------------------------------ *)
(** ** [str_to_date]

    The machine's local zone is its UTC offset in seconds as a function of
    the UTC instant (seconds since the epoch); [time.localtime] and
    [tzlocal.get_localzone()] both read this zone.  [local_time u] is the
    naive wall-clock reading of instant [u]. *)

(** [x <- a; b] in the [option] monad: an exception propagates. *)
Notation "'let*' x := a 'in' b" :=
  (match a with Some x => b | None => None end)
  (at level 200, x name, a at level 100, b at level 200).

(** [datetime]'s range, years 1 to 9999, in seconds: CPython's
    [utc_to_seconds] raises [ValueError] for a reading outside it, and
    [datetime] arithmetic raises [OverflowError] for a result outside it. *)
Definition datetime_in_range (t : Z) : bool :=
  (days_from_civil 1 1 1 * 86400 <=? t) && (t <? days_from_civil 10000 1 1 * 86400).

Section LocalZone.

Variable utcoffset : Z -> Z.

Definition local_time (u : Z) : Z := u + utcoffset u.

(** CPython's [local(u)] (_datetimemodule.c): the local reading of instant
    [u] through [localtime] and [utc_to_seconds], which raises
    [ValueError("year ... is out of range")] outside years 1 to 9999. *)
Definition local (u : Z) : option Z :=
  if datetime_in_range (local_time u) then Some (local_time u) else None.

(** CPython's [local_to_seconds] with [fold = 0]: the instant whose local
    reading is the naive datetime [t]; [max_fold_seconds] is one day. *)
Definition mktime (t : Z) : option Z :=
  let* lt := local t in
  let a := lt - t in
  let u1 := t - a in
  let* t1 := local u1 in
  let finish (b : Z) :=
    let u2 := t - b in
    let* t2 := local u2 in
    Some (if t2 =? t then u2 else if t1 =? t then u1 else Z.max u1 u2) in
  if t1 =? t then
    let u2 := u1 - 86400 in
    let* lt2 := local u2 in
    let b := lt2 - u2 in
    if a =? b then Some u1 else finish b
  else finish (t1 - u1).

(** [naive.astimezone(local_timezone).utcoffset()], as CPython's
    [datetime.astimezone] runs it on a naive datetime [t]:
    [local_timezone_from_local] takes the offset [o] at the instant
    [mktime t] as a fixed [timezone], which [new_timezone] rejects
    ([ValueError]) unless it is strictly within one day; [t - o] is the UTC
    instant ([OverflowError] out of range); the target zone's [fromutc]
    adds its offset at that instant ([OverflowError] out of range), and
    that offset is the result's [utcoffset()]. *)
Definition naive_astimezone_offset (t : Z) : option Z :=
  let* u := mktime t in
  let o := utcoffset u in
  if negb (Z.abs o <? 86400) then None else
  let r := t - o in
  if negb (datetime_in_range r) then None else
  let difference := utcoffset r in
  if datetime_in_range (r + difference) then Some difference else None.

(** [str_to_date]: lines 92-103 of tools.py. Line 97 builds an aware
    UTC datetime but line 98 calls [astimezone] on the naive [utc_time];
    [utcoffset()] of an aware result is never [None]; [utc_time + difference]
    raises [OverflowError] out of range. *)
Definition str_to_date (date_str : string) : option Z :=
  let* utc_time := strptime date_str in
  let* difference := naive_astimezone_offset utc_time in
  let lt := utc_time + difference in
  if datetime_in_range lt then Some lt else None.

(** The conversion the spec describes: the naive UTC reading shifted by the
    zone's offset at the entry's own UTC instant. *)
Definition str_to_date_at_instant (date_str : string) : option Z :=
  match strptime date_str with
  | Some utc_time => Some (utc_time + utcoffset utc_time)
  | None => None
  end.

End LocalZone.

(** A fixed UTC-5 zone. *)
Definition utc_minus_5 (_ : Z) : Z := -18000.

(** The America/New_York rule for 2024: EDT (UTC-4) from 2024-03-10T07:00Z
    to 2024-11-03T06:00Z, EST (UTC-5) otherwise. *)
Definition eastern_2024 (u : Z) : Z :=
  if (days_from_civil 2024 3 10 * 86400 + 7 * 3600 <=? u)
     && (u <? days_from_civil 2024 11 3 * 86400 + 6 * 3600)
  then -14400 else -18000.

(* ------------------------------------------------------------------ *)
(** ** Entries, [find_tags] and [calc_color_map] *)

(** An entry of the export; [tags = None] when the key is absent. *)
Record Entry := mkEntry {
  creationDate : string;
  tags : option (list string)
}.

(** [entry["tags"][0] if "tags" in entry else "none"], as in both
    [parse_entries]; [[][0]] raises [IndexError]. *)
Definition entry_tag (e : Entry) : option string :=
  match tags e with
  | None => Some "none"%string
  | Some [] => None
  | Some (t :: _) => Some t
  end.

(** [[entry["tags"][0] for entry in entries if "tags" in entry]] *)
Fixpoint first_tags (entries : list Entry) : option (list string) :=
  match entries with
  | [] => Some []
  | e :: rest =>
      match tags e with
      | None => first_tags rest
      | Some [] => None
      | Some (t :: _) =>
          match first_tags rest with
          | Some l => Some (t :: l)
          | None => None
          end
      end
  end.

(** [list(set(xs))]: the distinct elements; the order of a set's iteration
    is irrelevant once the result is sorted (see [sort_str_unique]). *)
Fixpoint dedup (l : list string) : list string :=
  match l with
  | [] => []
  | x :: rest => if existsb (String.eqb x) rest then dedup rest else x :: dedup rest
  end.

Fixpoint insert_str (x : string) (l : list string) : list string :=
  match l with
  | [] => [x]
  | y :: rest => if String.leb x y then x :: l else y :: insert_str x rest
  end.

(** [sorted(...)] on strings. *)
Fixpoint sort_str (l : list string) : list string :=
  match l with
  | [] => []
  | x :: rest => insert_str x (sort_str rest)
  end.

Definition find_tags (entries : list Entry) : option (list string) :=
  match first_tags entries with
  | Some avail_tags => Some (sort_str (dedup (avail_tags ++ ["none"%string])))
  | None => None
  end.

(** A color: the [gist_ncar] colormap sampled at a normalised position,
    or an RGBA literal. *)
Inductive Color :=
| gist_ncar (pos : Q)
| rgba (r g b a : Q).

Definition opaque_black : Color := rgba 0 0 0 1.

(** A Python dict as an association list in insertion order:
    assignment replaces the value of a present key in place, else appends. *)
Fixpoint dict_set {K V} (eqb : K -> K -> bool) (k : K) (v : V)
    (d : list (K * V)) : list (K * V) :=
  match d with
  | [] => [(k, v)]
  | (k', v') :: rest =>
      if eqb k k' then (k, v) :: rest else (k', v') :: dict_set eqb k v rest
  end.

Fixpoint dict_get {K V} (eqb : K -> K -> bool) (k : K)
    (d : list (K * V)) : option V :=
  match d with
  | [] => None
  | (k', v') :: rest => if eqb k k' then Some v' else dict_get eqb k rest
  end.

Definition ColorMap := list (string * Color).

(** [mapper.to_rgba(index)] with [Normalize(vmin=0, vmax=len(tags), clip=True)]:
    the position [index / len(tags)], inside [[0, 1)] for [index < len(tags)]. *)
Definition to_rgba (index len : nat) : Color :=
  gist_ncar (inject_Z (Z.of_nat index) / inject_Z (Z.of_nat len)).

Fixpoint color_comprehension (len index : nat) (tag_list : list string)
    (acc : ColorMap) : ColorMap :=
  match tag_list with
  | [] => acc
  | tag :: rest =>
      let acc' := if String.eqb tag "none" then acc
                  else dict_set String.eqb tag (to_rgba index len) acc in
      color_comprehension len (S index) rest acc'
  end.

(** [calc_color_map(tags)]; the record field [tags] of [Entry] takes the
    parameter's name, so the parameter is [tag_list]. *)
Definition calc_color_map (tag_list : list string) : ColorMap :=
  let color_map := color_comprehension (List.length tag_list) 0 tag_list [] in
  dict_set String.eqb "none"%string opaque_black color_map.

(* ------------------------------------------------------------------ *)
(** ** [parse_entries] of the two views *)

Fixpoint map_option {A B} (f : A -> option B) (l : list A) : option (list B) :=
  match l with
  | [] => Some []
  | x :: rest =>
      let* y := f x in
      let* ys := map_option f rest in
      Some (y :: ys)
  end.

(** [min(entries, key=lambda entry: entry["creationDate"])]: the first
    entry with the least key; [ValueError] on an empty sequence. *)
Fixpoint min_from (cur : Entry) (rest : list Entry) : Entry :=
  match rest with
  | [] => cur
  | x :: rest' =>
      min_from (if String.ltb (creationDate x) (creationDate cur) then x else cur) rest'
  end.

Definition min_by_creationDate (entries : list Entry) : option Entry :=
  match entries with
  | [] => None
  | e :: rest => Some (min_from e rest)
  end.

(** [Dot] of types.py. *)
Record Dot := mkDot {
  color : Color;
  tag : string;
  x_value : Z;
  y_value : Z
}.

(** [int(x_0)] on a day number, scaled back to seconds. *)
Definition int_day (x_0 : Z) : Z := Z.quot x_0 86400 * 86400.

Module DotPlot.

(** The loop body of [DotPlot.parse_entries] (graph.py 277-289). *)
Definition entry_info (off : Z -> Z) (color_map : ColorMap) (x_0 : Z)
    (entry : Entry) : option Dot :=
  let* date := str_to_date off (creationDate entry) in
  let x_val := date_part date in
  let y_val := int_day x_0 + date mod 86400 in
  let* tag := entry_tag entry in
  let* c := dict_get String.eqb tag color_map in
  Some (mkDot c tag x_val y_val).

(** [DotPlot.parse_entries] (graph.py 269-290). *)
Definition parse_entries (off : Z -> Z) (color_map : ColorMap)
    (entries : list Entry) : option (list Dot * Z) :=
  let* earliest_entry := min_by_creationDate entries in
  let* x_0 := str_to_date off (creationDate earliest_entry) in
  let* parsed_entries := map_option (entry_info off color_map x_0) entries in
  Some (parsed_entries, x_0).

(** The data steps of [DotPlot.__init__]: tags, colors, dots and origin. *)
Definition init (off : Z -> Z) (entries : list Entry) : option (list Dot * Z) :=
  let* tag_list := find_tags entries in
  parse_entries off (calc_color_map tag_list) entries.

(** The limits set by [DotPlot.__init__] (graph.py 240-246), on the
    seconds scale: [int(x_0)], [int(x_0) - 0.02], [int(x_0) + 1] and
    [int(x_0) + 0.98]; 0.02 and 0.98 days are 1728 and 84672 seconds (the
    float rounding of these sums is far below the one-hour spacing of the
    points compared with them). [format_dot_y_axis] sets the y range to
    [bottom, top]. *)
Definition bottom (x_0 : Z) : Z := int_day x_0.
Definition left (x_0 : Z) : Z := int_day x_0 - 1728.
Definition top (x_0 : Z) : Z := int_day x_0 + 86400.
Definition right (x_0 : Z) : Z := int_day x_0 + 84672.

(** [Line2D([], [], color=color, label=tag, marker="o", linestyle="none")]:
    a legend handle, its color and label. *)
Record Line := mkLine {
  line_color : Color;
  line_label : string
}.

(** [add_dot_legend] (graph.py 360-376): the handles built from
    [self.color_map.items()] and the labels [list(self.color_map.keys())]
    passed to [legend]. *)
Definition add_dot_legend (color_map : ColorMap) : list Line * list string :=
  let tags := map fst color_map in
  let lines := map (fun '(tag, c) => mkLine c tag) color_map in
  (lines, tags).

End DotPlot.

Module Histogram.

(** The loop body of [Histogram.parse_entries] (graph.py 482-494): the
    same as the dot plot's except [y_val = int(x_0) + date2num(date)]. *)
Definition entry_info (off : Z -> Z) (color_map : ColorMap) (x_0 : Z)
    (entry : Entry) : option Dot :=
  let* date := str_to_date off (creationDate entry) in
  let x_val := date_part date in
  let y_val := int_day x_0 + date in
  let* tag := entry_tag entry in
  let* c := dict_get String.eqb tag color_map in
  Some (mkDot c tag x_val y_val).

(** [Histogram.parse_entries] (graph.py 474-495). *)
Definition parse_entries (off : Z -> Z) (color_map : ColorMap)
    (entries : list Entry) : option (list Dot * Z) :=
  let* earliest_entry := min_by_creationDate entries in
  let* x_0 := str_to_date off (creationDate earliest_entry) in
  let* parsed_entries := map_option (entry_info off color_map x_0) entries in
  Some (parsed_entries, x_0).

(** [datetime]'s range, years 1 to 9999, in seconds. *)
Definition in_datetime_range (t : Z) : bool :=
  (days_from_civil 1 1 1 * 86400 <=? t) && (t <? days_from_civil 10000 1 1 * 86400).

(** [dates.num2date(x)]: the UTC datetime of a day number; [ValueError]
    outside [datetime]'s range. *)
Definition num2date (x : Z) : option Z :=
  if in_datetime_range x then Some x else None.

(** [for i in range(25): tag_freq[i] = 0] *)
Definition hours25 : list Z := map Z.of_nat (seq 0 25).

Definition empty_tag_freq : list (Z * nat) :=
  fold_left (fun d i => dict_set Z.eqb i 0%nat d) hours25 [].

(** [for dot in self.dots: date_obj = num2date(dot["y_value"]);
    if dot["tag"] == tag: tag_freq[date_obj.hour] += 1]; the loop variable
    [tag] is [tag_name] here, [tag] being the field of [Dot]. *)
Fixpoint count_dots (tag_name : string) (tag_freq : list (Z * nat))
    (dots : list Dot) : option (list (Z * nat)) :=
  match dots with
  | [] => Some tag_freq
  | dot :: rest =>
      let* date_obj := num2date (y_value dot) in
      let* tag_freq' :=
        if String.eqb dot.(tag) tag_name then
          let* n := dict_get Z.eqb (hour_of date_obj) tag_freq in
          Some (dict_set Z.eqb (hour_of date_obj) (S n) tag_freq)
        else Some tag_freq in
      count_dots tag_name tag_freq' rest
  end.

(** [for hour, length in tag_freq.items():
    res[date2num(start_day + delta * hour)] = length]; the addition raises
    [OverflowError] outside [datetime]'s range. *)
Fixpoint key_hours (start_day : Z) (tag_freq : list (Z * nat))
    (res : list (Z * nat)) : option (list (Z * nat)) :=
  match tag_freq with
  | [] => Some res
  | (hour, length) :: rest =>
      let time_of_day := start_day + 3600 * hour in
      if in_datetime_range time_of_day
      then key_hours start_day rest (dict_set Z.eqb time_of_day length res)
      else None
  end.

Fixpoint gen_loop (tag_list : list string) (dots : list Dot) (x_0 : Z)
    (freq : list (string * list (Z * nat))) :
    option (list (string * list (Z * nat))) :=
  match tag_list with
  | [] => Some freq
  | tag :: rest =>
      let* start_day := num2date (int_day x_0) in
      let* tag_freq := count_dots tag empty_tag_freq dots in
      let* res := key_hours start_day tag_freq [] in
      gen_loop rest dots x_0 (dict_set String.eqb tag res freq)
  end.

(** [Histogram.gen_hour_histogram_data] (graph.py 497-523). *)
Definition gen_hour_histogram_data (tag_list : list string) (dots : list Dot)
    (x_0 : Z) : option (list (string * list (Z * nat))) :=
  gen_loop tag_list dots x_0 [].

(** The data steps of [Histogram.__init__]. *)
Definition init (off : Z -> Z) (entries : list Entry) :
    option (list (string * list (Z * nat))) :=
  let* tag_list := find_tags entries in
  match parse_entries off (calc_color_map tag_list) entries with
  | Some (dots, x_0) => gen_hour_histogram_data tag_list dots x_0
  | None => None
  end.

(** The limits set by [Histogram.__init__] (graph.py 443-449), as for the
    dot plot; [format_hist_x_axis] sets the x range to [left, right]. *)
Definition bottom (x_0 : Z) : Z := int_day x_0.
Definition left (x_0 : Z) : Z := int_day x_0 - 1728.
Definition top (x_0 : Z) : Z := int_day x_0 + 86400.
Definition right (x_0 : Z) : Z := int_day x_0 + 84672.

(** [width=0.025] of the [bar] calls in [plot_histogram] (graph.py 540-546),
    0.025 days on the seconds scale; [bar]'s default [align="center"] puts
    a bar of key [k] over [[k - bar_width / 2, k + bar_width / 2]]. *)
Definition bar_width : Z := 2160.

(** A call [hist_axes.bar(keys, values, label=tag, color=..., bottom=...)];
    [bar_bottom] is [None] when no [bottom] is passed. *)
Record Bar := mkBar {
  bar_x : list Z;
  bar_height : list nat;
  bar_label : string;
  bar_color : Color;
  bar_bottom : option (list nat)
}.

(** [np.broadcast_arrays] on 1-d arrays of lengths [n] and [m], as [bar]
    does with [x], [height] and [bottom]; other shapes raise [ValueError]. *)
Definition broadcastable (n m : nat) : bool :=
  Nat.eqb n m || Nat.eqb n 1 || Nat.eqb m 1.

Fixpoint vadd (a b : list nat) : list nat :=
  match a, b with
  | x :: a', y :: b' => (x + y)%nat :: vadd a' b'
  | _, _ => []
  end.

(** [total_height += np.array(values)]: elementwise for equal lengths, a
    one-element right side is broadcast, other shapes raise [ValueError]. *)
Definition np_iadd (total values : list nat) : option (list nat) :=
  if Nat.eqb (List.length values) (List.length total) then Some (vadd total values)
  else match values with
       | [v] => Some (map (fun x => (x + v)%nat) total)
       | _ => None
       end.

(** The loop of [plot_histogram] (graph.py 533-550) over
    [histogram_data.items()]: [bars] so far and [total_height], which is
    [None] in the source until the first bar is drawn and is [[]] here
    then; [self.color_map[tag]] raises [KeyError] for a missing tag. *)
Fixpoint plot_loop (color_map : ColorMap) (data : list (string * list (Z * nat)))
    (bars : list Bar) (total_height : list nat) : option (list Bar * list nat) :=
  match data with
  | [] => Some (bars, total_height)
  | (tag, tag_freq) :: rest =>
      let keys := map fst tag_freq in
      let values := map snd tag_freq in
      let* c := dict_get String.eqb tag color_map in
      match match bars with
            | [] => Some (mkBar keys values tag c None,
                          repeat 0%nat (List.length values))
            | _ :: _ =>
                if broadcastable (List.length keys) (List.length total_height)
                then Some (mkBar keys values tag c (Some total_height), total_height)
                else None
            end with
      | Some (tag_bars, total_height') =>
          let* total_height'' := np_iadd total_height' values in
          plot_loop color_map rest (bars ++ [tag_bars]) total_height''
      | None => None
      end
  end.

(** [Histogram.plot_histogram]: the bars drawn, in order. *)
Definition plot_histogram (color_map : ColorMap)
    (histogram_data : list (string * list (Z * nat))) : option (list Bar) :=
  match plot_loop color_map histogram_data [] [] with
  | Some (bars, _) => Some bars
  | None => None
  end.

End Histogram.

(* ------------------------------------------------------------------ *)
(** ** [extract_json]

    A JSON value as Python's [json] module builds it; numbers keep their
    literal text. *)

Inductive json :=
| JNull
| JBool (b : bool)
| JNum (literal : string)
| JStr (s : string)
| JArr (items : list json)
| JObj (members : list (string * json)).

(** [extract_json(file)]: [json.load] of the file's text, returned as it
    is (tools.py 119-121).  The decoder [loads] is [json.loads], a
    parameter of the model; [None] is its [JSONDecodeError]. *)
Definition extract_json (loads : string -> option json) (source : string) :
    option json :=
  loads source.

(** [full_json["entries"]] in both views' constructors: a [KeyError] when
    the key is absent, a [TypeError] when the document is not an object. *)
Definition get_entries (full_json : json) : option json :=
  match full_json with
  | JObj members => dict_get String.eqb "entries"%string members
  | _ => None
  end.

(** A decoder for a subset of JSON on which it agrees with [json.loads]:
    [null], [true], [false], numbers [-?(0|[1-9]\d* )(\.\d+)?([eE][-+]?\d+)?],
    strings whose only escapes are those of the double quote, the
    backslash and the slash, arrays and objects (a
    repeated key keeps its last value, as a Python dict does), whitespace
    around tokens, and nothing after the document.  Other inputs, which
    [json.loads] may accept (other escapes, [NaN]), are rejected here. *)
Module JsonSubset.

Definition is_ws (c : ascii) : bool :=
  (c =? " ")%char || (c =? "009")%char || (c =? "010")%char || (c =? "013")%char.

Fixpoint skip_ws (s : list ascii) : list ascii :=
  match s with
  | c :: rest => if is_ws c then skip_ws rest else s
  | [] => []
  end.

Definition is_digit (c : ascii) : bool :=
  match digit_val c with Some _ => true | None => false end.

Fixpoint take_digits (s : list ascii) : list ascii * list ascii :=
  match s with
  | c :: rest =>
      if is_digit c then let '(ds, r) := take_digits rest in (c :: ds, r)
      else ([], s)
  | [] => ([], [])
  end.

(** One or more digits. *)
Definition digits1 (s : list ascii) : option (list ascii * list ascii) :=
  match take_digits s with
  | ([], _) => None
  | r => Some r
  end.

Definition number (s : list ascii) : option (list ascii * list ascii) :=
  let '(sign, s1) := match s with
                     | "-"%char :: r => (["-"%char], r)
                     | _ => ([], s)
                     end in
  let* ip := match s1 with
             | "0"%char :: r => Some (["0"%char], r)
             | _ => digits1 s1
             end in
  let '(int_part, s2) := ip in
  let* fp := match s2 with
             | "."%char :: r =>
                 let* dr := digits1 r in
                 let '(ds, r') := dr in Some ("."%char :: ds, r')
             | _ => Some ([], s2)
             end in
  let '(frac_part, s3) := fp in
  let* ep := match s3 with
             | e :: r =>
                 if (e =? "e")%char || (e =? "E")%char then
                   let '(sg, r1) := match r with
                                    | c :: r2 => if (c =? "+")%char || (c =? "-")%char
                                                 then ([c], r2) else ([], r)
                                    | [] => ([], r)
                                    end in
                   let* dr := digits1 r1 in
                   let '(ds, r') := dr in Some (e :: sg ++ ds, r')
                 else Some ([], s3)
             | [] => Some ([], s3)
             end in
  let '(exp_part, s4) := ep in
  Some (sign ++ int_part ++ frac_part ++ exp_part, s4).

Fixpoint string_body (s : list ascii) : option (list ascii * list ascii) :=
  match s with
  | "034"%char :: rest => Some ([], rest)
  | "\"%char :: c :: rest =>
      if (c =? "034")%char || (c =? "\")%char || (c =? "/")%char then
        let* br := string_body rest in
        let '(b, r) := br in Some (c :: b, r)
      else None
  | c :: rest =>
      if (nat_of_ascii c <? 32)%nat then None
      else let* br := string_body rest in
           let '(b, r) := br in Some (c :: b, r)
  | [] => None
  end.

Definition str_token (s : list ascii) : option (string * list ascii) :=
  match skip_ws s with
  | "034"%char :: rest =>
      let* br := string_body rest in
      let '(b, r) := br in Some (string_of_list_ascii b, r)
  | _ => None
  end.

Definition keyword (kw : list ascii) (s : list ascii) : option (list ascii) :=
  if list_eq_dec ascii_dec kw (firstn (List.length kw) s)
  then Some (skipn (List.length kw) s) else None.

Fixpoint value (fuel : nat) (s : list ascii) : option (json * list ascii) :=
  match fuel with
  | O => None
  | S fuel' =>
      let s := skip_ws s in
      match s with
      | "{"%char :: rest =>
          match skip_ws rest with
          | "}"%char :: r => Some (JObj [], r)
          | _ => members fuel' rest []
          end
      | "["%char :: rest =>
          match skip_ws rest with
          | "]"%char :: r => Some (JArr [], r)
          | _ => items fuel' rest []
          end
      | "034"%char :: _ =>
          let* sr := str_token s in let '(str, r) := sr in Some (JStr str, r)
      | "t"%char :: _ =>
          let* r := keyword (list_ascii_of_string "true") s in Some (JBool true, r)
      | "f"%char :: _ =>
          let* r := keyword (list_ascii_of_string "false") s in Some (JBool false, r)
      | "n"%char :: _ =>
          let* r := keyword (list_ascii_of_string "null") s in Some (JNull, r)
      | _ =>
          let* nr := number s in
          let '(lit, r) := nr in Some (JNum (string_of_list_ascii lit), r)
      end
  end
with members (fuel : nat) (s : list ascii) (acc : list (string * json)) :
    option (json * list ascii) :=
  match fuel with
  | O => None
  | S fuel' =>
      let* kr := str_token s in
      let '(k, r) := kr in
      match skip_ws r with
      | ":"%char :: r1 =>
          let* vr := value fuel' r1 in
          let '(v, r2) := vr in
          let acc' := dict_set String.eqb k v acc in
          match skip_ws r2 with
          | ","%char :: r3 => members fuel' r3 acc'
          | "}"%char :: r3 => Some (JObj acc', r3)
          | _ => None
          end
      | _ => None
      end
  end
with items (fuel : nat) (s : list ascii) (acc : list json) :
    option (json * list ascii) :=
  match fuel with
  | O => None
  | S fuel' =>
      let* vr := value fuel' s in
      let '(v, r) := vr in
      match skip_ws r with
      | ","%char :: r1 => items fuel' r1 (acc ++ [v])
      | "]"%char :: r1 => Some (JArr (acc ++ [v]), r1)
      | _ => None
      end
  end.

(** [json.loads(text)]: one value, whitespace, then the end of the text. *)
Definition loads (text : string) : option json :=
  let s := list_ascii_of_string text in
  let* vr := value (S (List.length s)) s in
  let '(v, r) := vr in
  match skip_ws r with
  | [] => Some v
  | _ => None
  end.

End JsonSubset.

(* ------------------------------------------------------------------ *)
(** ** Notions used by the statements *)

(** The fixed format [YYYY-MM-DDTHH:MM:SSZ] with zero-padded fields. *)
Definition digit_char (n : Z) : ascii := ascii_of_nat (Z.to_nat (48 + n)).

Definition pad2 (n : Z) : list ascii := [digit_char (n / 10); digit_char (n mod 10)].

Definition pad4 (n : Z) : list ascii :=
  [digit_char (n / 1000); digit_char ((n / 100) mod 10);
   digit_char ((n / 10) mod 10); digit_char (n mod 10)].

Definition fixed_format (v : fields) : string :=
  let '(y, m, d, hh, mm, ss) := v in
  string_of_list_ascii
    (pad4 y ++ ["-"%char] ++ pad2 m ++ ["-"%char] ++ pad2 d ++ ["T"%char] ++
     pad2 hh ++ [":"%char] ++ pad2 mm ++ [":"%char] ++ pad2 ss ++ ["Z"%char]).

(** The number of entries whose local timestamp has hour [h]. *)
Definition count_entries_at_hour (off : Z -> Z) (h : Z) (entries : list Entry) : nat :=
  List.length (filter (fun e => match str_to_date off (creationDate e) with
                                | Some t => hour_of t =? h
                                | None => false
                                end) entries).

(** The count stored under [key] in a tag's series, 0 if absent. *)
Definition bucket (key : Z) (res : list (Z * nat)) : nat :=
  match dict_get Z.eqb key res with Some n => n | None => 0%nat end.

(** The sum over all tags of the count stored under [key]. *)
Definition sum_over_tags (key : Z) (freq : list (string * list (Z * nat))) : nat :=
  fold_right (fun '(_, res) acc => (bucket key res + acc)%nat) 0%nat freq.

(** Replace every apostrophe by a double quote, to write JSON texts. *)
Definition dq (s : string) : string :=
  string_of_list_ascii
    (map (fun c => if (c =? "'")%char then "034"%char else c) (list_ascii_of_string s)).

(** A tag's hour table [{0: f 0, ..., 24: f 24}]. *)
Definition tf_of (f : Z -> nat) : list (Z * nat) := map (fun i => (i, f i)) Histogram.hours25.

(** The number of dots of tag [t] whose timestamp has hour [h]. *)
Definition count_tag_hour (t : string) (h : Z) (dots : list Dot) : nat :=
  List.length (filter (fun d => String.eqb d.(tag) t && (hour_of (y_value d) =? h)) dots).

(** Sums over a list of tags. *)
Definition sum_tags (f : string -> nat) (l : list string) : nat :=
  fold_right (fun t acc => (f t + acc)%nat) 0%nat l.

(** Sample entries. *)
Definition entry_empty_tags : Entry := mkEntry "2024-01-15T14:30:00Z" (Some []).

Definition entry_work : Entry := mkEntry "2024-01-15T14:30:00Z" (Some ["work"%string]).

Definition entry_1969 : Entry := mkEntry "1970-01-01T02:00:00Z" (Some ["work"%string]).

Definition entries_sample : list Entry :=
  [mkEntry "2024-01-15T14:30:00Z" (Some ["work"; "urgent"]%string);
   mkEntry "2024-01-16T14:10:00Z" (Some ["home"%string]);
   mkEntry "2024-01-14T03:00:00Z" None].

(** Python's [<=] and [<] on strings. *)
Definition str_le (a b : string) : Prop := String.leb a b = true.
Definition str_lt (a b : string) : Prop := String.ltb a b = true.

(** An entry that makes [parse_entries] raise: [entry["tags"][0]] on an
    empty list, or a [creationDate] that [strptime] rejects. *)
Definition bad_entry (off : Z -> Z) (e : Entry) : Prop :=
  entry_tag e = None \/ str_to_date off (creationDate e) = None.

(** What makes [gen_hour_histogram_data] raise for a tag: [num2date] out of
    [datetime]'s range on the origin day, on its hour-24 marker, or on a
    dot's [y_value]. *)
Definition hist_bad (dots : list Dot) (x_0 : Z) : Prop :=
  Histogram.in_datetime_range (int_day x_0) = false \/
  Histogram.in_datetime_range (int_day x_0 + 86400) = false \/
  exists d, In d dots /\ Histogram.in_datetime_range (y_value d) = false.

(** The elementwise sum of [n]-element count vectors, [n] zeros if none:
    the [total_height] of [plot_histogram] after the given bars. *)
Definition vsum (n : nat) (hs : list (list nat)) : list nat :=
  fold_left Histogram.vadd hs (repeat 0%nat n).

(** Bar [b] is the one drawn for the histogram item [p] with color map [cm]. *)
Definition bar_of (cm : ColorMap) (p : string * list (Z * nat)) (b : Histogram.Bar) : Prop :=
  Histogram.bar_label b = fst p /\ Histogram.bar_x b = map fst (snd p) /\
  Histogram.bar_height b = map snd (snd p) /\
  dict_get String.eqb (fst p) cm = Some (Histogram.bar_color b).

(* ================================================================== *)
(** * Proofs *)

(** ** Dictionaries *)

Section Dict.

Context {K V : Type} (eqb : K -> K -> bool).
Hypothesis eqb_spec : forall a b, reflect (a = b) (eqb a b).

Lemma eqb_refl_K (k : K) : eqb k k = true.
Proof. destruct (eqb_spec k k); congruence. Qed.

Lemma dict_get_set_same (k : K) (v : V) d :
  dict_get eqb k (dict_set eqb k v d) = Some v.
Proof.
  induction d as [|[k' v'] rest IH]; simpl.
  - now rewrite eqb_refl_K.
  - destruct (eqb_spec k k') as [->|Hne]; simpl.
    + now rewrite eqb_refl_K.
    + destruct (eqb_spec k k'); [contradiction|exact IH].
Qed.

Lemma dict_get_set_other (k k0 : K) (v : V) d :
  k0 <> k -> dict_get eqb k0 (dict_set eqb k v d) = dict_get eqb k0 d.
Proof.
  intros Hne. induction d as [|[k' v'] rest IH]; simpl.
  - destruct (eqb_spec k0 k); [congruence|reflexivity].
  - destruct (eqb_spec k k') as [->|Hne']; simpl.
    + destruct (eqb_spec k0 k'); [congruence|reflexivity].
    + destruct (eqb_spec k0 k'); [reflexivity|exact IH].
Qed.

Lemma dict_set_fresh (k : K) (v : V) d :
  ~ In k (map fst d) -> dict_set eqb k v d = d ++ [(k, v)].
Proof.
  induction d as [|[k' v'] rest IH]; simpl; intros Hn; [reflexivity|].
  destruct (eqb_spec k k') as [->|Hne]; [exfalso; auto|].
  f_equal; auto.
Qed.

Lemma dict_get_app_notin (k : K) (d1 d2 : list (K * V)) :
  ~ In k (map fst d1) -> dict_get eqb k (d1 ++ d2) = dict_get eqb k d2.
Proof.
  induction d1 as [|[k' v'] rest IH]; simpl; intros Hn; [reflexivity|].
  destruct (eqb_spec k k') as [->|Hne]; [exfalso; auto|auto].
Qed.

Lemma dict_get_app_in (k : K) (v : V) (d1 d2 : list (K * V)) :
  dict_get eqb k d1 = Some v -> dict_get eqb k (d1 ++ d2) = Some v.
Proof.
  induction d1 as [|[k' v'] rest IH]; simpl; [discriminate|].
  destruct (eqb k k'); auto.
Qed.

End Dict.

Lemma string_eqb_spec (a b : string) : reflect (a = b) (String.eqb a b).
Proof. apply String.eqb_spec. Qed.

Lemma Z_eqb_spec (a b : Z) : reflect (a = b) (Z.eqb a b).
Proof. apply Z.eqb_spec. Qed.

(** ** Colors *)

Lemma color_comprehension_notin len index tag_list acc t :
  ~ In t tag_list ->
  dict_get String.eqb t (color_comprehension len index tag_list acc)
  = dict_get String.eqb t acc.
Proof.
  revert index acc.
  induction tag_list as [|x rest IH]; intros index acc Hn; simpl; [reflexivity|].
  rewrite IH by (simpl in Hn; tauto).
  destruct (String.eqb x "none"); [reflexivity|].
  apply dict_get_set_other; [exact string_eqb_spec|].
  intros ->; apply Hn; now left.
Qed.

Lemma color_comprehension_nth len index tag_list acc i t :
  NoDup tag_list -> nth_error tag_list i = Some t -> t <> "none"%string ->
  dict_get String.eqb t (color_comprehension len index tag_list acc)
  = Some (to_rgba (index + i) len).
Proof.
  revert index acc i.
  induction tag_list as [|x rest IH]; intros index acc i Hnd Hi Hnone;
    [destruct i; discriminate|].
  inversion Hnd as [|? ? Hx Hnd']; subst.
  destruct i as [|i]; simpl in Hi |- *.
  - injection Hi as <-.
    rewrite color_comprehension_notin by exact Hx.
    destruct (String.eqb_spec x "none"); [contradiction|].
    rewrite Nat.add_0_r. apply dict_get_set_same, string_eqb_spec.
  - rewrite (IH (S index) _ i Hnd' Hi Hnone). f_equal. f_equal. lia.
Qed.

(** C8: whatever the tag list, ["none"] maps to opaque black. *)
Theorem calc_color_map_none_black (tag_list : list string) :
  dict_get String.eqb "none"%string (calc_color_map tag_list) = Some opaque_black.
Proof. unfold calc_color_map. apply dict_get_set_same, string_eqb_spec. Qed.

(** C7 (as amended): a non-["none"] tag at 0-indexed position [i] of the
    whole tag list, ["none"] included in the ranking, is mapped to the
    palette sampled at [i / L], [L] the length of the whole list. *)
Theorem calc_color_map_position (tag_list : list string) (i : nat) (t : string) :
  NoDup tag_list -> nth_error tag_list i = Some t -> t <> "none"%string ->
  dict_get String.eqb t (calc_color_map tag_list)
  = Some (gist_ncar (inject_Z (Z.of_nat i) / inject_Z (Z.of_nat (List.length tag_list)))).
Proof.
  intros Hnd Hi Hnone. unfold calc_color_map.
  rewrite dict_get_set_other by (exact string_eqb_spec || exact Hnone).
  rewrite (color_comprehension_nth _ 0 _ _ i t Hnd Hi Hnone). reflexivity.
Qed.

Lemma calc_color_map_position_witness :
  NoDup ["home"; "none"; "work"]%string /\
  dict_get String.eqb "work"%string (calc_color_map ["home"; "none"; "work"]%string)
  = Some (gist_ncar (inject_Z 2 / inject_Z 3)).
Proof.
  assert (Hnd : NoDup ["home"; "none"; "work"]%string).
  { repeat constructor; simpl; intuition discriminate. }
  split; [exact Hnd|].
  apply (calc_color_map_position _ 2 "work"%string Hnd); [reflexivity|discriminate].
Defined.

(** C7 fails: in the sorted list ["home"; "none"; "work"], ["work"] has
    rank 1 of the N = 2 tags other than ["none"], but it is not mapped to
    the position 1/2. *)
Lemma calc_color_map_rank_counterexample :
  ~ (exists p, dict_get String.eqb "work"%string (calc_color_map ["home"; "none"; "work"]%string)
               = Some (gist_ncar p) /\ (p == 1 # 2)%Q).
Proof.
  intros [p [Hp Heq]]. vm_compute in Hp. injection Hp as <-.
  vm_compute in Heq. discriminate.
Qed.

(** ** The empty export *)

(** C1 fails: with no entries both views raise ([min()] of an empty
    sequence), so neither points nor a histogram are produced. *)
Lemma empty_entries_counterexample :
  DotPlot.init utc_minus_5 [] = None /\ Histogram.init utc_minus_5 [] = None.
Proof. split; reflexivity. Qed.

(** C1 (as amended): for an export with no entries, tag resolution gives
    [["none"]] and the color map maps ["none"] to black, but the point
    projection of both views fails, so no points and no histogram are
    produced. *)
Theorem empty_entries_views (off : Z -> Z) :
  find_tags [] = Some ["none"%string] /\
  calc_color_map ["none"%string] = [("none"%string, opaque_black)] /\
  DotPlot.parse_entries off (calc_color_map ["none"%string]) [] = None /\
  DotPlot.init off [] = None /\
  Histogram.parse_entries off (calc_color_map ["none"%string]) [] = None /\
  Histogram.init off [] = None.
Proof. repeat split. Qed.

(** ** Timestamp normalization *)

(** C2: the offset is resolved at the instant whose local reading equals
    the UTC reading, not at the entry's instant.  In the America/New_York
    zone, ["2024-03-10T05:00:00Z"] is 00:00 EST, but the code yields 01:00;
    in the fixed UTC-5 zone the spec's scenario (14:30Z to 09:30) holds. *)
Theorem str_to_date_dst_divergence :
  str_to_date eastern_2024 "2024-03-10T05:00:00Z"
    = Some (to_seconds (2024, 3, 10, 1, 0, 0)) /\
  str_to_date_at_instant eastern_2024 "2024-03-10T05:00:00Z"
    = Some (to_seconds (2024, 3, 10, 0, 0, 0)) /\
  str_to_date utc_minus_5 "2024-01-15T14:30:00Z"
    = Some (to_seconds (2024, 1, 15, 9, 30, 0)).
Proof. vm_compute. repeat split. Qed.

(** ** Primary tags and tag resolution *)

(** C5: an entry whose [tags] is present but empty gets no primary tag:
    [entry["tags"][0]] raises [IndexError] in [find_tags] and in both
    [parse_entries], so neither view is built. *)
Theorem empty_tags_entry_fails (off : Z -> Z) :
  entry_tag entry_empty_tags = None /\
  find_tags [entry_empty_tags] = None /\
  DotPlot.init off [entry_empty_tags] = None /\
  Histogram.init off [entry_empty_tags] = None /\
  DotPlot.parse_entries off (calc_color_map ["none"%string]) [entry_empty_tags] = None.
Proof.
  repeat split; cbn; cbv [DotPlot.entry_info Histogram.entry_info];
    repeat (destruct (str_to_date off _); cbn); reflexivity.
Qed.

(** C6: [find_tags] raises on an entry whose [tags] is empty instead of
    returning [["none"]]. *)
Theorem find_tags_empty_tags_fails :
  find_tags [entry_empty_tags] = None /\
  find_tags [mkEntry "2024-01-15T14:30:00Z" None] = Some ["none"%string].
Proof. split; reflexivity. Qed.

(** ** Loading *)

(** C10 fails: a syntactically valid document without an [entries] key is
    returned by [extract_json]; the missing key only surfaces at the
    caller's [full_json["entries"]]. *)
Lemma extract_json_missing_entries_counterexample :
  extract_json JsonSubset.loads (dq "{'metadata': {'version': '1.0'}}")
    = Some (JObj [("metadata"%string, JObj [("version"%string, JStr "1.0")])]) /\
  get_entries (JObj [("metadata"%string, JObj [("version"%string, JStr "1.0")])]) = None.
Proof. split; reflexivity. Qed.

(** C10 (as amended): [extract_json] fails exactly when the decoder does;
    every decoded document is returned as it is, with or without an
    [entries] key, and a missing key makes the constructors' lookup fail. *)
Theorem extract_json_returns_decoded (loads : string -> option json) (source : string) :
  (loads source = None -> extract_json loads source = None) /\
  (forall full_json, loads source = Some full_json ->
     extract_json loads source = Some full_json /\
     (get_entries full_json = None ->
      match extract_json loads source with
      | Some doc => get_entries doc
      | None => None
      end = None)).
Proof.
  unfold extract_json. split; [auto|].
  intros full_json H. rewrite H. auto.
Qed.

(** ** The strptime matcher on the fixed format *)

Lemma Z_enum (lo m : Z) (n : nat) :
  lo <= m < lo + Z.of_nat n -> In m (map (fun i => lo + Z.of_nat i) (seq 0 n)).
Proof.
  intros H. apply in_map_iff. exists (Z.to_nat (m - lo)). split; [lia|].
  apply in_seq. lia.
Qed.

Ltac enum_cases H :=
  simpl in H; repeat (destruct H as [<-|H]); [..|contradiction].

Lemma digit_val_char (n : Z) : 0 <= n <= 9 -> digit_val (digit_char n) = Some n.
Proof.
  intros Hn. pose proof (Z_enum 0 n 10 ltac:(lia)) as H. enum_cases H; reflexivity.
Qed.

Ltac field_case :=
  intros rest k r Hk;
  cbv [re_m re_d re_H re_M re_S two p_alt p_bind p_ret p_lit p_digit_in pad2];
  cbv; rewrite Hk; reflexivity.

Lemma re_m_pad2 (m : Z) : 1 <= m <= 12 ->
  forall rest k r, k m rest = Some r -> re_m (pad2 m ++ rest) k = Some r.
Proof. intros Hm. pose proof (Z_enum 1 m 12 ltac:(lia)) as H. enum_cases H; field_case. Qed.

Lemma re_d_pad2 (d : Z) : 1 <= d <= 31 ->
  forall rest k r, k d rest = Some r -> re_d (pad2 d ++ rest) k = Some r.
Proof. intros Hd. pose proof (Z_enum 1 d 31 ltac:(lia)) as H. enum_cases H; field_case. Qed.

Lemma re_H_pad2 (hh : Z) : 0 <= hh <= 23 ->
  forall rest k r, k hh rest = Some r -> re_H (pad2 hh ++ rest) k = Some r.
Proof. intros Hh. pose proof (Z_enum 0 hh 24 ltac:(lia)) as H. enum_cases H; field_case. Qed.

Lemma re_M_pad2 (mm : Z) : 0 <= mm <= 59 ->
  forall rest k r, k mm rest = Some r -> re_M (pad2 mm ++ rest) k = Some r.
Proof. intros Hm. pose proof (Z_enum 0 mm 60 ltac:(lia)) as H. enum_cases H; field_case. Qed.

Lemma re_S_pad2 (ss : Z) : 0 <= ss <= 59 ->
  forall rest k r, k ss rest = Some r -> re_S (pad2 ss ++ rest) k = Some r.
Proof. intros Hs. pose proof (Z_enum 0 ss 60 ltac:(lia)) as H. enum_cases H; field_case. Qed.

Lemma re_Y_pad4 (y : Z) : 0 <= y <= 9999 ->
  forall rest k, re_Y (pad4 y ++ rest) k = k y rest.
Proof.
  intros Hy rest k. unfold re_Y, pad4, p_bind, p_ret, p_digit_in. simpl app.
  cbv beta iota.
  assert (H100 : y / 100 = y / 10 / 10) by (rewrite Z.div_div by lia; reflexivity).
  assert (H1000 : y / 1000 = y / 100 / 10) by (rewrite Z.div_div by lia; reflexivity).
  pose proof (Z.div_mod y 10 ltac:(lia)).
  pose proof (Z.div_mod (y / 10) 10 ltac:(lia)).
  pose proof (Z.div_mod (y / 100) 10 ltac:(lia)).
  pose proof (Z.mod_pos_bound y 10 ltac:(lia)).
  pose proof (Z.mod_pos_bound (y / 10) 10 ltac:(lia)).
  pose proof (Z.mod_pos_bound (y / 100) 10 ltac:(lia)).
  assert (0 <= y / 1000 <= 9).
  { split; [apply Z.div_pos; lia|].
    enough (y / 1000 < 10) by lia. apply Z.div_lt_upper_bound; lia. }
  rewrite !digit_val_char by lia.
  rewrite <- H100 in *. rewrite <- H1000 in *.
  repeat match goal with
         | |- context [?a <=? ?b] =>
             let E := fresh in assert (E : (a <=? b) = true) by (apply Z.leb_le; lia);
             rewrite E; clear E
         end.
  simpl andb. cbv iota. f_equal. lia.
Qed.

Lemma p_lit_same (c : ascii) rest k : p_lit c (c :: rest) k = k tt rest.
Proof. unfold p_lit. now rewrite Ascii.eqb_refl. Qed.

Lemma days_in_month_bounds (y m : Z) : 28 <= days_in_month y m <= 31.
Proof.
  unfold days_in_month.
  destruct (m =? 2); [destruct (is_leap y); lia|].
  destruct ((m =? 4) || (m =? 6) || (m =? 9) || (m =? 11)); lia.
Qed.

Lemma re_timestamp_fixed_format (y m d hh mm ss : Z) :
  0 <= y <= 9999 -> 1 <= m <= 12 -> 1 <= d <= 31 ->
  0 <= hh <= 23 -> 0 <= mm <= 59 -> 0 <= ss <= 59 ->
  re_timestamp
    (pad4 y ++ ["-"%char] ++ pad2 m ++ ["-"%char] ++ pad2 d ++ ["T"%char] ++
     pad2 hh ++ [":"%char] ++ pad2 mm ++ [":"%char] ++ pad2 ss ++ ["Z"%char])
    (fun v rest => Some (v, rest))
  = Some ((y, m, d, hh, mm, ss), []).
Proof.
  intros Hy Hm Hd Hh Hmi Hs.
  unfold re_timestamp, p_bind at 1. rewrite re_Y_pad4 by exact Hy.
  cbv beta. simpl app. unfold p_bind at 1. rewrite p_lit_same. cbv beta.
  unfold p_bind at 1. apply re_m_pad2; [exact Hm|]. cbv beta.
  unfold p_bind at 1. rewrite p_lit_same. cbv beta.
  unfold p_bind at 1. apply re_d_pad2; [exact Hd|]. cbv beta.
  unfold p_bind at 1. rewrite p_lit_same. cbv beta.
  unfold p_bind at 1. apply re_H_pad2; [exact Hh|]. cbv beta.
  unfold p_bind at 1. rewrite p_lit_same. cbv beta.
  unfold p_bind at 1. apply re_M_pad2; [exact Hmi|]. cbv beta.
  unfold p_bind at 1. rewrite p_lit_same. cbv beta.
  unfold p_bind at 1. apply re_S_pad2; [exact Hs|]. cbv beta.
  unfold p_bind at 1. rewrite p_lit_same. reflexivity.
Qed.

Lemma datetime_in_range_iff x :
  datetime_in_range x = true <->
  days_from_civil 1 1 1 * 86400 <= x < days_from_civil 10000 1 1 * 86400.
Proof. unfold datetime_in_range. rewrite andb_true_iff, Z.leb_le, Z.ltb_lt. reflexivity. Qed.

Lemma datetime_in_range_between a b x :
  datetime_in_range a = true -> datetime_in_range b = true -> a <= x <= b ->
  datetime_in_range x = true.
Proof. rewrite !datetime_in_range_iff. lia. Qed.

Lemma local_in_range off u :
  datetime_in_range (local_time off u) = true -> local off u = Some (local_time off u).
Proof. intros H. unfold local. rewrite H. reflexivity. Qed.

(** With offsets under a day, [mktime] only reads the zone within two days
    of [t], and answers an instant within a day of it. *)
Lemma mktime_near off t :
  (forall u, Z.abs (off u) < 86400) ->
  datetime_in_range (t - 3 * 86400) = true -> datetime_in_range (t + 2 * 86400) = true ->
  exists u, mktime off t = Some u /\ t - 86400 < u < t + 86400.
Proof.
  intros Hoff Hlo Hhi.
  assert (Hl : forall u, t - 2 * 86400 < u < t + 86400 -> local off u = Some (local_time off u)).
  { intros u Hu. apply local_in_range. apply (datetime_in_range_between _ _ _ Hlo Hhi).
    unfold local_time. specialize (Hoff u). lia. }
  unfold mktime. rewrite (Hl t) by lia. cbv beta iota zeta.
  set (a := local_time off t - t).
  assert (Ha : Z.abs a < 86400) by (unfold a, local_time; specialize (Hoff t); lia).
  rewrite (Hl (t - a)) by lia. cbv beta iota zeta.
  set (t1 := local_time off (t - a)).
  destruct (Z.eqb_spec t1 t) as [E|E].
  - rewrite (Hl (t - a - 86400)) by lia. cbv beta iota zeta.
    set (b := local_time off (t - a - 86400) - (t - a - 86400)).
    assert (Hb : Z.abs b < 86400)
      by (unfold b, local_time; specialize (Hoff (t - a - 86400)); lia).
    destruct (a =? b); [eexists; split; [reflexivity|lia]|].
    rewrite (Hl (t - b)) by lia. cbv beta iota zeta.
    eexists; split; [reflexivity|].
    repeat match goal with |- context [if ?c then _ else _] => destruct c end; lia.
  - set (b := t1 - (t - a)).
    assert (Hb : Z.abs b < 86400)
      by (unfold b, t1, local_time; specialize (Hoff (t - a)); lia).
    rewrite (Hl (t - b)) by lia. cbv beta iota zeta.
    eexists; split; [reflexivity|].
    repeat match goal with |- context [if ?c then _ else _] => destruct c end; lia.
Qed.

Lemma naive_astimezone_offset_near off t :
  (forall u, Z.abs (off u) < 86400) ->
  datetime_in_range (t - 3 * 86400) = true -> datetime_in_range (t + 2 * 86400) = true ->
  exists d, naive_astimezone_offset off t = Some d /\ Z.abs d < 86400.
Proof.
  intros Hoff Hlo Hhi.
  destruct (mktime_near off t Hoff Hlo Hhi) as [u [Hu Hr]].
  unfold naive_astimezone_offset. rewrite Hu. cbv beta iota zeta.
  pose proof (Hoff u) as Hou.
  replace (negb (Z.abs (off u) <? 86400)) with false
    by (symmetry; apply negb_false_iff, Z.ltb_lt; exact Hou).
  rewrite (datetime_in_range_between _ _ (t - off u) Hlo Hhi) by lia.
  pose proof (Hoff (t - off u)).
  rewrite (datetime_in_range_between _ _ (t - off u + off (t - off u)) Hlo Hhi) by lia.
  eexists; split; [reflexivity|assumption].
Qed.

Lemma str_to_date_near off s t :
  strptime s = Some t -> (forall u, Z.abs (off u) < 86400) ->
  datetime_in_range (t - 3 * 86400) = true -> datetime_in_range (t + 2 * 86400) = true ->
  str_to_date off s <> None.
Proof.
  intros Hs Hoff Hlo Hhi.
  destruct (naive_astimezone_offset_near off t Hoff Hlo Hhi) as [d [Hd Hb]].
  unfold str_to_date. rewrite Hs. cbv beta iota zeta. rewrite Hd. cbv beta iota zeta.
  rewrite (datetime_in_range_between _ _ (t + d) Hlo Hhi) by lia. discriminate.
Qed.

Lemma str_to_date_strptime_None off s : strptime s = None -> str_to_date off s = None.
Proof. intros Hs. unfold str_to_date. rewrite Hs. reflexivity. Qed.

(** C9 fails: a string that is not zero-padded (or has a lowercase [t]/[z])
    is accepted, a string of the exact shape with an impossible date is
    rejected, and a valid timestamp near the ends of the datetime range is
    parsed but then rejected by [astimezone] (whose local readings leave
    years 1 to 9999): 0001-01-01T06:00:00Z in UTC and in UTC-5, and
    9999-12-31T23:00:00Z in UTC+5. *)
Lemma strptime_not_exact_counterexample :
  strptime "2024-1-5T1:2:3Z" = Some (to_seconds (2024, 1, 5, 1, 2, 3)) /\
  strptime (fixed_format (2024, 2, 30, 0, 0, 0)) = None /\
  strptime (fixed_format (1, 1, 1, 6, 0, 0)) = Some (to_seconds (1, 1, 1, 6, 0, 0)) /\
  str_to_date (fun _ => 0) (fixed_format (1, 1, 1, 6, 0, 0)) = None /\
  str_to_date utc_minus_5 (fixed_format (1, 1, 1, 6, 0, 0)) = None /\
  strptime (fixed_format (9999, 12, 31, 23, 0, 0)) = Some (to_seconds (9999, 12, 31, 23, 0, 0)) /\
  str_to_date (fun _ => 18000) (fixed_format (9999, 12, 31, 23, 0, 0)) = None.
Proof. repeat split; vm_compute; reflexivity. Qed.

(** C9 (as amended): normalization succeeds on every string of the exact
    fixed format whose fields form a valid date and time, provided the
    zone's offsets are under a day and the instant lies at least three days
    after the start of year 1 and two days before the end of year 9999;
    it fails whenever [strptime] does; [strptime] rejects the exact shape
    with an invalid month, day or second, but also accepts strings that are
    not in the exact format (unpadded fields, lowercase [t] and [z]) and
    converts them. *)
Theorem str_to_date_format (off : Z -> Z) (y m d hh mm ss : Z) :
  1 <= y <= 9999 -> 1 <= m <= 12 -> 1 <= d <= days_in_month y m ->
  0 <= hh <= 23 -> 0 <= mm <= 59 -> 0 <= ss <= 59 ->
  (forall u, Z.abs (off u) < 86400) ->
  datetime_in_range (to_seconds (y, m, d, hh, mm, ss) - 3 * 86400) = true ->
  datetime_in_range (to_seconds (y, m, d, hh, mm, ss) + 2 * 86400) = true ->
  strptime (fixed_format (y, m, d, hh, mm, ss)) = Some (to_seconds (y, m, d, hh, mm, ss)) /\
  str_to_date off (fixed_format (y, m, d, hh, mm, ss)) <> None /\
  (forall s, strptime s = None -> str_to_date off s = None) /\
  strptime (fixed_format (2024, 13, 1, 0, 0, 0)) = None /\
  strptime (fixed_format (2023, 2, 29, 0, 0, 0)) = None /\
  strptime (fixed_format (2024, 1, 15, 14, 30, 60)) = None /\
  strptime "2024-1-5T1:2:3Z" = Some (to_seconds (2024, 1, 5, 1, 2, 3)) /\
  strptime "2024-01-15t14:30:00z" = Some (to_seconds (2024, 1, 15, 14, 30, 0)).
Proof.
  intros Hy Hm Hd Hh Hmi Hs Hoff Hlo Hhi.
  pose proof (days_in_month_bounds y m).
  assert (Hp : strptime (fixed_format (y, m, d, hh, mm, ss))
               = Some (to_seconds (y, m, d, hh, mm, ss))).
  { unfold strptime, fixed_format. rewrite list_ascii_of_string_of_list_ascii.
    rewrite re_timestamp_fixed_format by lia.
    unfold datetime_valid.
    replace ((1 <=? y) && (d <=? days_in_month y m) && (ss <=? 59)) with true
      by (symmetry; repeat rewrite andb_true_iff; repeat split; apply Z.leb_le; lia).
    reflexivity. }
  split; [exact Hp|]. split; [exact (str_to_date_near off _ _ Hp Hoff Hlo Hhi)|].
  split; [intros s; apply str_to_date_strptime_None|].
  repeat split; reflexivity.
Qed.

Lemma str_to_date_format_witness :
  (1 <= 2024 <= 9999 /\ 1 <= 1 <= 12 /\ 1 <= 15 <= days_in_month 2024 1 /\
   0 <= 14 <= 23 /\ 0 <= 30 <= 59 /\ 0 <= 0 <= 59 /\
   (forall u, Z.abs (utc_minus_5 u) < 86400) /\
   datetime_in_range (to_seconds (2024, 1, 15, 14, 30, 0) - 3 * 86400) = true /\
   datetime_in_range (to_seconds (2024, 1, 15, 14, 30, 0) + 2 * 86400) = true) /\
  str_to_date utc_minus_5 (fixed_format (2024, 1, 15, 14, 30, 0)) <> None.
Proof.
  assert (H : 1 <= 15 <= days_in_month 2024 1) by (vm_compute; split; discriminate).
  assert (Ho : forall u, Z.abs (utc_minus_5 u) < 86400) by (intros; vm_compute; reflexivity).
  assert (Hlo : datetime_in_range (to_seconds (2024, 1, 15, 14, 30, 0) - 3 * 86400) = true)
    by (vm_compute; reflexivity).
  assert (Hhi : datetime_in_range (to_seconds (2024, 1, 15, 14, 30, 0) + 2 * 86400) = true)
    by (vm_compute; reflexivity).
  split; [repeat split; lia || assumption|].
  exact (proj1 (proj2 (str_to_date_format utc_minus_5 2024 1 15 14 30 0
    ltac:(lia) ltac:(lia) H ltac:(lia) ltac:(lia) ltac:(lia) Ho Hlo Hhi))).
Defined.

(** ** Tag resolution *)

Lemma insert_str_perm x l : Permutation (insert_str x l) (x :: l).
Proof.
  induction l as [|y rest IH]; simpl; [reflexivity|].
  destruct (String.leb x y); [reflexivity|].
  rewrite IH. apply perm_swap.
Qed.

Lemma sort_str_perm l : Permutation (sort_str l) l.
Proof.
  induction l as [|x rest IH]; simpl; [reflexivity|].
  rewrite insert_str_perm. now apply perm_skip.
Qed.

Lemma existsb_eqb_In x l : existsb (String.eqb x) l = true <-> In x l.
Proof.
  rewrite existsb_exists. split.
  - intros [y [Hy Heq]]. apply String.eqb_eq in Heq. now subst.
  - intros H. exists x. split; [exact H|apply String.eqb_refl].
Qed.

Lemma dedup_In x l : In x (dedup l) <-> In x l.
Proof.
  induction l as [|y rest IH]; simpl; [tauto|].
  destruct (existsb (String.eqb y) rest) eqn:E.
  - apply existsb_eqb_In in E. rewrite IH. split; [tauto|].
    intros [<-|H]; assumption.
  - simpl. rewrite IH. tauto.
Qed.

Lemma dedup_NoDup l : NoDup (dedup l).
Proof.
  induction l as [|y rest IH]; simpl; [constructor|].
  destruct (existsb (String.eqb y) rest) eqn:E; [exact IH|].
  constructor; [|exact IH].
  rewrite dedup_In. intros H. apply existsb_eqb_In in H. congruence.
Qed.

Lemma first_tags_entry_tag entries avail e t :
  first_tags entries = Some avail -> In e entries -> entry_tag e = Some t ->
  t = "none"%string \/ In t avail.
Proof.
  revert avail. induction entries as [|e' rest IH]; intros avail Hf Hin Ht;
    [destruct Hin|].
  simpl in Hf. unfold entry_tag in Ht. destruct Hin as [->|Hin].
  - destruct (tags e) as [[|x xs]|]; try discriminate.
    + destruct (first_tags rest); [|discriminate].
      injection Hf as <-. injection Ht as <-. right. now left.
    + injection Ht as <-. now left.
  - fold (entry_tag e) in Ht.
    destruct (tags e') as [[|x xs]|]; try discriminate.
    + destruct (first_tags rest) as [l|] eqn:E; [|discriminate].
      injection Hf as <-. destruct (IH l eq_refl Hin Ht); [now left|right; now right].
    + exact (IH avail Hf Hin Ht).
Qed.

(** The sorted tag list has no duplicate and contains every entry's
    primary tag. *)
Lemma find_tags_covers entries tag_list :
  find_tags entries = Some tag_list ->
  NoDup tag_list /\
  (forall e t, In e entries -> entry_tag e = Some t -> In t tag_list).
Proof.
  unfold find_tags. destruct (first_tags entries) as [avail|] eqn:Ef; [|discriminate].
  intros H. injection H as <-. split.
  - eapply Permutation_NoDup; [symmetry; apply sort_str_perm|apply dedup_NoDup].
  - intros e t Hin Ht.
    eapply Permutation_in; [symmetry; apply sort_str_perm|].
    apply dedup_In, in_or_app.
    destruct (first_tags_entry_tag _ _ _ _ Ef Hin Ht) as [->|H];
      [right; now left|now left].
Qed.

(** ** Parsing the entries *)

Lemma map_option_Forall2 {A B} (f : A -> option B) l l' :
  map_option f l = Some l' -> Forall2 (fun x y => f x = Some y) l l'.
Proof.
  revert l'. induction l as [|x rest IH]; intros l' H; simpl in H.
  - injection H as <-. constructor.
  - destruct (f x) eqn:Ex; [|discriminate].
    destruct (map_option f rest) eqn:Er; [|discriminate].
    injection H as <-. constructor; auto.
Qed.

Lemma min_by_creationDate_In entries e :
  min_by_creationDate entries = Some e -> In e entries.
Proof.
  destruct entries as [|e0 rest]; simpl; [discriminate|]. intros H. injection H as <-.
  assert (forall cur, In (min_from cur rest) (cur :: rest)) as Hgen.
  { induction rest as [|x r IH]; intros cur; simpl; [now left|].
    destruct (String.ltb (creationDate x) (creationDate cur)).
    - right. apply IH.
    - destruct (IH cur) as [H|H]; [now left|right; now right]. }
  apply Hgen.
Qed.

Lemma Histogram_parse_entries_rel off color_map entries dots x_0 :
  Histogram.parse_entries off color_map entries = Some (dots, x_0) ->
  (exists earliest, min_by_creationDate entries = Some earliest /\
     str_to_date off (creationDate earliest) = Some x_0) /\
  Forall2 (fun e d => exists t, str_to_date off (creationDate e) = Some t /\
             entry_tag e = Some d.(tag) /\ y_value d = int_day x_0 + t) entries dots.
Proof.
  unfold Histogram.parse_entries.
  destruct (min_by_creationDate entries) as [earliest|] eqn:Em; [|discriminate].
  destruct (str_to_date off (creationDate earliest)) as [x|] eqn:Ex; [|discriminate].
  destruct (map_option _ entries) as [l|] eqn:El; [|discriminate].
  intros H. injection H as <- <-. split; [eauto|].
  apply map_option_Forall2 in El. eapply Forall2_impl; [|exact El].
  intros e d Hd. unfold Histogram.entry_info in Hd.
  destruct (str_to_date off (creationDate e)) as [t|]; [|discriminate].
  destruct (entry_tag e) as [tg|]; [|discriminate].
  destruct (dict_get String.eqb tg color_map); [|discriminate].
  injection Hd as <-. simpl. eauto.
Qed.

Lemma DotPlot_parse_entries_rel off color_map entries dots x_0 :
  DotPlot.parse_entries off color_map entries = Some (dots, x_0) ->
  (exists earliest, min_by_creationDate entries = Some earliest /\
     str_to_date off (creationDate earliest) = Some x_0) /\
  Forall2 (fun e d => exists t, str_to_date off (creationDate e) = Some t /\
             entry_tag e = Some d.(tag) /\ x_value d = date_part t /\
             y_value d = int_day x_0 + t mod 86400) entries dots.
Proof.
  unfold DotPlot.parse_entries.
  destruct (min_by_creationDate entries) as [earliest|] eqn:Em; [|discriminate].
  destruct (str_to_date off (creationDate earliest)) as [x|] eqn:Ex; [|discriminate].
  destruct (map_option _ entries) as [l|] eqn:El; [|discriminate].
  intros H. injection H as <- <-. split; [eauto|].
  apply map_option_Forall2 in El. eapply Forall2_impl; [|exact El].
  intros e d Hd. unfold DotPlot.entry_info in Hd.
  destruct (str_to_date off (creationDate e)) as [t|]; [|discriminate].
  destruct (entry_tag e) as [tg|]; [|discriminate].
  destruct (dict_get String.eqb tg color_map); [|discriminate].
  injection Hd as <-. simpl. eauto 6.
Qed.

(** ** The earliest entry *)

Lemma string_compare_lt_trans a b c :
  String.compare a b = Lt -> String.compare b c = Lt -> String.compare a c = Lt.
Proof.
  revert b c. induction a as [|x a IH]; intros [|y b] [|z c]; simpl;
    try discriminate; try reflexivity.
  unfold Ascii.compare.
  destruct (N.compare_spec (N_of_ascii x) (N_of_ascii y));
  destruct (N.compare_spec (N_of_ascii y) (N_of_ascii z));
  destruct (N.compare_spec (N_of_ascii x) (N_of_ascii z));
  intros Hab Hbc; try discriminate; try reflexivity; try lia.
  now apply (IH b c).
Qed.

Lemma string_ltb_trans a b c :
  String.ltb a b = true -> String.ltb b c = true -> String.ltb a c = true.
Proof.
  unfold String.ltb.
  destruct (String.compare a b) eqn:E1; try discriminate.
  destruct (String.compare b c) eqn:E2; try discriminate.
  now rewrite (string_compare_lt_trans _ _ _ E1 E2).
Qed.

Lemma string_ltb_not_lt_trans a b c :
  String.ltb a b = true -> String.ltb c b = false -> String.ltb a c = true.
Proof.
  intros H1 H2. unfold String.ltb in *.
  destruct (String.compare c b) eqn:E; try discriminate.
  - apply String.compare_eq_iff in E. now subst.
  - rewrite String.compare_antisym in E.
    destruct (String.compare b c) eqn:E'; try discriminate.
    destruct (String.compare a b) eqn:E1; try discriminate.
    now rewrite (string_compare_lt_trans _ _ _ E1 E').
Qed.

Lemma string_ltb_irrefl s : String.ltb s s = false.
Proof.
  unfold String.ltb. induction s as [|c s IH]; simpl; [reflexivity|].
  unfold Ascii.compare. rewrite N.compare_refl. exact IH.
Qed.

Lemma min_from_least cur rest e :
  In e (cur :: rest) -> String.ltb (creationDate e) (creationDate (min_from cur rest)) = false.
Proof.
  revert cur e. induction rest as [|x r IH]; intros cur e Hin; simpl.
  - destruct Hin as [<-|[]]. apply string_ltb_irrefl.
  - destruct (String.ltb (creationDate x) (creationDate cur)) eqn:Exc.
    + destruct Hin as [<-|Hin].
      * destruct (String.ltb (creationDate cur) (creationDate (min_from x r))) eqn:E;
          [|reflexivity].
        pose proof (IH x x (or_introl eq_refl)) as Hx.
        rewrite (string_ltb_trans _ _ _ Exc E) in Hx. discriminate.
      * apply IH. exact Hin.
    + destruct Hin as [<-|[<-|Hin]].
      * apply IH. now left.
      * destruct (String.ltb (creationDate x) (creationDate (min_from cur r))) eqn:E;
          [|reflexivity].
        pose proof (IH cur cur (or_introl eq_refl)) as Hc.
        rewrite (string_ltb_not_lt_trans _ _ _ E Hc) in Exc. discriminate.
      * apply IH. now right.
Qed.

Lemma min_by_creationDate_least entries earliest :
  min_by_creationDate entries = Some earliest ->
  forall e, In e entries -> String.ltb (creationDate e) (creationDate earliest) = false.
Proof.
  destruct entries as [|e0 rest]; simpl; [discriminate|].
  intros H. injection H as <-. intros e Hin. now apply min_from_least.
Qed.

Lemma int_day_nonneg x : 0 <= x -> int_day x = date_part x.
Proof.
  intros Hx. unfold int_day, date_part.
  rewrite Z.quot_div_nonneg by lia.
  pose proof (Z.div_mod x 86400 ltac:(lia)). lia.
Qed.

(** ** Point projection *)

(** C4 fails: the origin keeps the earliest entry's time of day; for one
    entry at 14:30Z in a UTC-5 zone it is 09:30 past midnight, not a
    date-only day number. *)
Lemma origin_time_of_day_counterexample :
  exists dots,
    DotPlot.init utc_minus_5 [entry_work] = Some (dots, to_seconds (2024, 1, 15, 9, 30, 0)) /\
    to_seconds (2024, 1, 15, 9, 30, 0) mod 86400 = 9 * 3600 + 30 * 60.
Proof. eexists. split; reflexivity. Qed.

(** C4 (as amended, for [DotPlot.parse_entries]): the origin [x_0] is the
    day number of the full local timestamp, time of day included, of the
    entry with the least [creationDate] string; each entry's point has as
    [x_value] the day number of its local date and as [y_value]
    [int(x_0)] plus the fractional part of its local day number, [int]
    truncating, which is [floor] for origins from 1970 on. *)
Theorem dot_parse_entries_coordinates (off : Z -> Z) (color_map : ColorMap)
    (entries : list Entry) (dots : list Dot) (x_0 : Z) :
  DotPlot.parse_entries off color_map entries = Some (dots, x_0) ->
  (exists earliest,
     In earliest entries /\
     (forall e, In e entries ->
        String.ltb (creationDate e) (creationDate earliest) = false) /\
     str_to_date off (creationDate earliest) = Some x_0) /\
  Forall2 (fun e d => exists t, str_to_date off (creationDate e) = Some t /\
             x_value d = date_part t /\
             y_value d = Z.quot x_0 86400 * 86400 + t mod 86400) entries dots /\
  (0 <= x_0 -> Z.quot x_0 86400 * 86400 = date_part x_0).
Proof.
  intros H. destruct (DotPlot_parse_entries_rel _ _ _ _ _ H) as [[earliest [Em Ex]] Hrel].
  split; [|split].
  - exists earliest. split; [now apply min_by_creationDate_In|].
    split; [now apply min_by_creationDate_least|exact Ex].
  - eapply Forall2_impl; [|exact Hrel].
    intros e d [t [Ht [_ [Hx Hy]]]]. exists t. auto.
  - apply int_day_nonneg.
Qed.

Lemma dot_parse_entries_coordinates_witness :
  exists dots x_0,
    DotPlot.parse_entries utc_minus_5 (calc_color_map ["home"; "none"; "work"]%string)
      entries_sample = Some (dots, x_0) /\
    (exists earliest,
       In earliest entries_sample /\
       (forall e, In e entries_sample ->
          String.ltb (creationDate e) (creationDate earliest) = false) /\
       str_to_date utc_minus_5 (creationDate earliest) = Some x_0) /\
    Forall2 (fun e d => exists t, str_to_date utc_minus_5 (creationDate e) = Some t /\
               x_value d = date_part t /\
               y_value d = Z.quot x_0 86400 * 86400 + t mod 86400) entries_sample dots.
Proof.
  destruct (DotPlot.parse_entries utc_minus_5 (calc_color_map ["home"; "none"; "work"]%string)
              entries_sample) as [[dots x_0]|] eqn:E;
    [|vm_compute in E; discriminate].
  exists dots, x_0. split; [reflexivity|].
  destruct (dot_parse_entries_coordinates utc_minus_5
              (calc_color_map ["home"; "none"; "work"]%string) entries_sample dots x_0 E)
    as [Hearliest [Hdots _]].
  split; assumption.
Defined.

(** ** The hour histogram *)

Section HourTable.

Import Histogram.

Lemma hour_of_bounds t : 0 <= hour_of t <= 23.
Proof.
  unfold hour_of. pose proof (Z.mod_pos_bound t 86400 ltac:(lia)).
  split; [apply Z.div_pos; lia|].
  enough ((t mod 86400) / 3600 < 24) by lia. apply Z.div_lt_upper_bound; lia.
Qed.

Lemma hour_of_shift x t : hour_of (int_day x + t) = hour_of t.
Proof.
  unfold hour_of, int_day. f_equal.
  rewrite Z.add_comm, Z.mod_add by lia. reflexivity.
Qed.

Lemma In_hours25 h : In h hours25 <-> 0 <= h <= 24.
Proof.
  unfold hours25. rewrite in_map_iff. split.
  - intros [i [<- Hi]]. apply in_seq in Hi. lia.
  - intros Hh. exists (Z.to_nat h). split; [lia|]. apply in_seq. lia.
Qed.

Lemma NoDup_hours25 : NoDup hours25.
Proof.
  unfold hours25. apply Finite.Injective_map_NoDup; [|apply seq_NoDup].
  intros a b H. lia.
Qed.

Lemma empty_tag_freq_tf : empty_tag_freq = tf_of (fun _ => 0%nat).
Proof. reflexivity. Qed.

Lemma tf_of_ext f g : (forall i, 0 <= i <= 24 -> f i = g i) -> tf_of f = tf_of g.
Proof.
  intros H. unfold tf_of. apply map_ext_in.
  intros i Hi. apply In_hours25 in Hi. now rewrite H.
Qed.

Lemma dict_get_tf_of f h : 0 <= h <= 24 -> dict_get Z.eqb h (tf_of f) = Some (f h).
Proof.
  intros Hh. pose proof (Z_enum 0 h 25 ltac:(lia)) as H. enum_cases H; reflexivity.
Qed.

Lemma dict_set_tf_of f h v : 0 <= h <= 24 ->
  dict_set Z.eqb h v (tf_of f) = tf_of (fun j => if j =? h then v else f j).
Proof.
  intros Hh. pose proof (Z_enum 0 h 25 ltac:(lia)) as H. enum_cases H; reflexivity.
Qed.

Lemma count_dots_spec tag_name f dots tf :
  count_dots tag_name (tf_of f) dots = Some tf ->
  tf = tf_of (fun i => (f i + count_tag_hour tag_name i dots)%nat).
Proof.
  revert f. induction dots as [|d rest IH]; intros f H; cbn [count_dots] in H.
  - injection H as <-. apply tf_of_ext. intros i _. unfold count_tag_hour. simpl. lia.
  - unfold num2date in H. destruct (in_datetime_range (y_value d)); [|discriminate].
    pose proof (hour_of_bounds (y_value d)) as Hb.
    destruct (String.eqb d.(tag) tag_name) eqn:Et; cbv beta iota in H.
    + rewrite dict_get_tf_of in H by lia. cbv beta iota in H.
      rewrite dict_set_tf_of in H by lia.
      rewrite (IH _ H). apply tf_of_ext. intros i _.
      unfold count_tag_hour. simpl. rewrite Et. simpl.
      destruct (Z.eqb_spec i (hour_of (y_value d))) as [->|Hne].
      * rewrite Z.eqb_refl. simpl. lia.
      * replace (hour_of (y_value d) =? i) with false by (symmetry; apply Z.eqb_neq; lia).
        reflexivity.
    + rewrite (IH _ H). apply tf_of_ext. intros i _.
      unfold count_tag_hour. simpl. rewrite Et. reflexivity.
Qed.

Lemma key_hours_fresh start l acc res :
  NoDup (map fst l) ->
  (forall p, In p l -> ~ In (start + 3600 * fst p) (map fst acc)) ->
  key_hours start l acc = Some res ->
  res = acc ++ map (fun p => (start + 3600 * fst p, snd p)) l.
Proof.
  revert acc. induction l as [|[h n] rest IH]; intros acc Hnd Hfresh H; cbn [key_hours] in H.
  - injection H as <-. now rewrite app_nil_r.
  - destruct (in_datetime_range (start + 3600 * h)); [|discriminate].
    simpl in Hnd. inversion Hnd as [|? ? Hh Hnd']; subst.
    rewrite (dict_set_fresh Z.eqb Z_eqb_spec) in H
      by exact (Hfresh (h, n) (or_introl eq_refl)).
    assert (Hfr : forall p, In p rest ->
      ~ In (start + 3600 * fst p) (map fst (acc ++ [(start + 3600 * h, n)]))).
    { intros [h' n'] Hin Hk. rewrite map_app, in_app_iff in Hk. destruct Hk as [Hk|[Hk|[]]].
    + exact (Hfresh (h', n') (or_intror Hin) Hk).
    + cbn [fst] in Hk. apply Hh. assert (h = h') by lia. subst.
      change h' with (fst (h', n')). now apply in_map. }
    rewrite (IH _ Hnd' Hfr H). simpl. now rewrite <- app_assoc.
Qed.

(** The series [res] built for tag [t]: hour markers of day [int_day x_0]. *)
Lemma map_fst_tf_of f : map fst (tf_of f) = hours25.
Proof. unfold tf_of. rewrite map_map. apply map_id. Qed.

Lemma gen_loop_spec tag_list dots x_0 freq out :
  NoDup tag_list ->
  (forall t, In t tag_list -> ~ In t (map fst freq)) ->
  gen_loop tag_list dots x_0 freq = Some out ->
  out = freq ++ map (fun t => (t, map (fun i => (int_day x_0 + 3600 * i,
                                               count_tag_hour t i dots)) hours25))
                    tag_list.
Proof.
  revert freq. induction tag_list as [|t rest IH]; intros freq Hnd Hfresh H;
    cbn [gen_loop] in H.
  - injection H as <-. now rewrite app_nil_r.
  - unfold num2date in H. destruct (in_datetime_range (int_day x_0)); [|discriminate].
    cbv beta iota in H.
    destruct (count_dots t empty_tag_freq dots) as [tf|] eqn:Ec; [|discriminate].
    cbv beta iota in H.
    rewrite empty_tag_freq_tf in Ec. apply count_dots_spec in Ec. subst tf.
    destruct (key_hours (int_day x_0) _ []) as [res|] eqn:Ek; [|discriminate].
    cbv beta iota in H.
    apply key_hours_fresh in Ek;
      [|rewrite map_fst_tf_of; apply NoDup_hours25|intros p _ []].
    simpl in Ek. subst res.
    inversion Hnd as [|? ? Ht Hnd']; subst.
    rewrite (dict_set_fresh String.eqb string_eqb_spec) in H
      by exact (Hfresh t (or_introl eq_refl)).
    assert (Hfr : forall t', In t' rest -> ~ In t' (map fst (freq ++ [(t, map
      (fun p => (int_day x_0 + 3600 * fst p, snd p))
      (tf_of (fun i => (0 + count_tag_hour t i dots)%nat)))]))).
    { intros t' Hin Hk. rewrite map_app, in_app_iff in Hk. destruct Hk as [Hk|[Hk|[]]].
      - exact (Hfresh t' (or_intror Hin) Hk).
      - simpl in Hk. subst. contradiction. }
    rewrite (IH _ Hnd' Hfr H). rewrite <- app_assoc. cbn [app].
    unfold tf_of. rewrite map_map. reflexivity.
Qed.

Lemma dict_get_series (s : Z) (g : Z -> nat) (h : Z) :
  0 <= h <= 24 ->
  dict_get Z.eqb (s + 3600 * h) (map (fun i => (s + 3600 * i, g i)) hours25) = Some (g h).
Proof.
  intros Hh. apply In_hours25 in Hh. pose proof NoDup_hours25 as Hnd.
  revert Hh Hnd. generalize hours25 as l.
  induction l as [|i rest IH]; intros Hh Hnd; [destruct Hh|]. cbn [map dict_get].
  inversion Hnd as [|? ? Hi Hnd']; subst.
  destruct (Z.eqb_spec (s + 3600 * h) (s + 3600 * i)) as [E|E].
  - replace i with h by lia. reflexivity.
  - destruct Hh as [->|Hh]; [lia|]. auto.
Qed.

Lemma count_tag_hour_24 t dots : count_tag_hour t 24 dots = 0%nat.
Proof.
  unfold count_tag_hour. induction dots as [|d rest IH]; [reflexivity|]. simpl.
  pose proof (hour_of_bounds (y_value d)).
  replace (hour_of (y_value d) =? 24) with false by (symmetry; apply Z.eqb_neq; lia).
  now rewrite andb_false_r.
Qed.

Lemma sum_tags_add f g l :
  sum_tags (fun t => (f t + g t)%nat) l = (sum_tags f l + sum_tags g l)%nat.
Proof. induction l as [|t rest IH]; simpl; lia. Qed.

Lemma sum_tags_ext f g l : (forall t, f t = g t) -> sum_tags f l = sum_tags g l.
Proof. intros H. induction l as [|t rest IH]; simpl; auto. Qed.

Lemma sum_tags_zero l : sum_tags (fun _ => 0%nat) l = 0%nat.
Proof. induction l; simpl; auto. Qed.

Lemma sum_tags_indicator_notin x l :
  ~ In x l -> sum_tags (fun t => if String.eqb x t then 1%nat else 0%nat) l = 0%nat.
Proof.
  induction l as [|t rest IH]; simpl; intros Hn; [reflexivity|].
  destruct (String.eqb_spec x t); [exfalso; subst; auto|]. simpl. auto.
Qed.

Lemma sum_tags_indicator x l :
  NoDup l -> In x l -> sum_tags (fun t => if String.eqb x t then 1%nat else 0%nat) l = 1%nat.
Proof.
  induction l as [|t rest IH]; intros Hnd Hin; [destruct Hin|].
  inversion Hnd as [|? ? Ht Hnd']; subst. simpl.
  destruct (String.eqb_spec x t) as [->|Hne].
  - now rewrite sum_tags_indicator_notin.
  - destruct Hin as [->|Hin]; [congruence|]. simpl. auto.
Qed.

Lemma count_tag_hour_cons t h d rest :
  count_tag_hour t h (d :: rest) =
  ((if String.eqb d.(tag) t && (hour_of (y_value d) =? h)%Z then 1 else 0)
   + count_tag_hour t h rest)%nat.
Proof. unfold count_tag_hour. simpl. now destruct (_ && _). Qed.

Lemma sum_count_tag_hour l h dots :
  NoDup l -> (forall d, In d dots -> In d.(tag) l) ->
  sum_tags (fun t => count_tag_hour t h dots) l =
  List.length (filter (fun d => hour_of (y_value d) =? h) dots).
Proof.
  intros Hnd. induction dots as [|d rest IH]; intros Hin.
  - apply sum_tags_zero.
  - rewrite (sum_tags_ext _ _ _ (fun t => count_tag_hour_cons t h d rest)).
    rewrite sum_tags_add, IH by (intros d' Hd'; apply Hin; now right). simpl.
    destruct (hour_of (y_value d) =? h).
    + rewrite (sum_tags_ext _ (fun t => if String.eqb d.(tag) t then 1%nat else 0%nat))
        by (intros t; now rewrite andb_true_r).
      rewrite sum_tags_indicator by (auto; apply Hin; now left). reflexivity.
    + rewrite (sum_tags_ext _ (fun _ => 0%nat)) by (intros t; now rewrite andb_false_r).
      now rewrite sum_tags_zero.
Qed.

Lemma dots_hour_count off x_0 entries dots h :
  Forall2 (fun e d => exists t, str_to_date off (creationDate e) = Some t /\
             entry_tag e = Some d.(tag) /\ y_value d = int_day x_0 + t) entries dots ->
  List.length (filter (fun d => hour_of (y_value d) =? h) dots) =
  count_entries_at_hour off h entries.
Proof.
  unfold count_entries_at_hour.
  induction 1 as [|e d es ds [t [Ht [_ Hy]]] _ IH]; [reflexivity|]. simpl.
  rewrite Ht, Hy, hour_of_shift. destruct (hour_of t =? h); simpl; congruence.
Qed.

Lemma Forall2_In_r {A B} (R : A -> B -> Prop) xs ys y :
  Forall2 R xs ys -> In y ys -> exists x, In x xs /\ R x y.
Proof.
  induction 1 as [|x y' xs' ys' Hr _ IH]; intros Hin; [destruct Hin|].
  destruct Hin as [<-|Hin].
  - exists x. split; [now left|exact Hr].
  - destruct (IH Hin) as [x' [Hx' Hr']]. exists x'. split; [now right|exact Hr'].
Qed.

Lemma sum_over_tags_series key l (series : string -> list (Z * nat)) :
  sum_over_tags key (map (fun t => (t, series t)) l) =
  sum_tags (fun t => bucket key (series t)) l.
Proof. induction l as [|t rest IH]; simpl; auto. Qed.

End HourTable.

(** C3 fails before 1970: one entry at 02:00Z in a UTC-5 zone is local
    1969-12-31T21:00, so the origin is 3 hours before 1970-01-01 and its
    calendar day starts at -86400 seconds; [int(x_0)] truncates toward zero
    and every tag's 25 keys are the hour markers of 1970-01-01 instead. *)
Lemma histogram_origin_day_counterexample :
  exists dots freq,
    find_tags [entry_1969] = Some ["none"; "work"]%string /\
    Histogram.parse_entries utc_minus_5 (calc_color_map ["none"; "work"]%string)
      [entry_1969] = Some (dots, -10800) /\
    date_part (-10800) = -86400 /\
    Histogram.gen_hour_histogram_data ["none"; "work"]%string dots (-10800) = Some freq /\
    Forall (fun p => map fst (snd p) = map (fun h => 3600 * h) Histogram.hours25) freq.
Proof.
  eexists. eexists.
  split; [reflexivity|]. split; [reflexivity|]. split; [reflexivity|].
  split; [reflexivity|]. repeat constructor.
Qed.

(** C3: whenever the histogram is generated, i.e. the tags are found
    ([find_tags]), the entries are parsed ([Histogram.parse_entries], which
    fails on an empty set) with origin [x_0], and
    [gen_hour_histogram_data] runs, its keys are exactly the sorted tag list;
    every tag's series has exactly the 25 keys [int(x_0) + h hours] for
    [h = 0 .. 24], in that order, its hour-24 bucket holds 0, and for each
    [h] in [0 .. 24] the sum over all tags of the bucket at hour [h] equals
    the number of entries whose local timestamp has hour [h]. *)
Theorem histogram_hour_buckets off entries tag_list dots x_0 freq :
  find_tags entries = Some tag_list ->
  Histogram.parse_entries off (calc_color_map tag_list) entries = Some (dots, x_0) ->
  Histogram.gen_hour_histogram_data tag_list dots x_0 = Some freq ->
  map fst freq = tag_list /\
  Forall (fun p => map fst (snd p) =
                   map (fun h => int_day x_0 + 3600 * h) Histogram.hours25 /\
                   dict_get Z.eqb (int_day x_0 + 3600 * 24) (snd p) = Some 0%nat) freq /\
  (forall h, 0 <= h <= 24 ->
     sum_over_tags (int_day x_0 + 3600 * h) freq = count_entries_at_hour off h entries).
Proof.
  intros Hft Hp Hg.
  destruct (find_tags_covers _ _ Hft) as [Hnd Hcov].
  destruct (Histogram_parse_entries_rel _ _ _ _ _ Hp) as [_ Hrel].
  unfold Histogram.gen_hour_histogram_data in Hg.
  apply gen_loop_spec in Hg; [|exact Hnd|intros t _ []]. cbn [app] in Hg. subst freq.
  split; [|split].
  - rewrite map_map. apply map_id.
  - apply Forall_forall. intros p Hin. apply in_map_iff in Hin as [t [<- _]].
    cbn [snd]. split.
    + rewrite map_map. reflexivity.
    + rewrite dict_get_series by lia. now rewrite count_tag_hour_24.
  - intros h Hh. rewrite sum_over_tags_series.
    rewrite (sum_tags_ext _ (fun t => count_tag_hour t h dots))
      by (intros t; unfold bucket; now rewrite dict_get_series by lia).
    rewrite sum_count_tag_hour; [now apply (dots_hour_count _ x_0)|exact Hnd|].
    intros d Hd. destruct (Forall2_In_r _ _ _ _ Hrel Hd) as [e [He [t [_ [Ht _]]]]].
    exact (Hcov e _ He Ht).
Qed.

Lemma histogram_hour_buckets_witness :
  exists dots x_0 freq,
    find_tags entries_sample = Some ["home"; "none"; "work"]%string /\
    Histogram.parse_entries utc_minus_5 (calc_color_map ["home"; "none"; "work"]%string)
      entries_sample = Some (dots, x_0) /\
    Histogram.gen_hour_histogram_data ["home"; "none"; "work"]%string dots x_0 = Some freq /\
    map fst freq = ["home"; "none"; "work"]%string /\
    sum_over_tags (int_day x_0 + 3600 * 9) freq = count_entries_at_hour utc_minus_5 9 entries_sample.
Proof.
  do 3 eexists.
  split; [reflexivity|]. split; [reflexivity|]. split; [reflexivity|].
  pose proof (histogram_hour_buckets utc_minus_5 entries_sample _ _ _ _
                eq_refl eq_refl eq_refl) as [Hk [_ Hs]].
  split; [exact Hk|]. apply Hs. lia.
Defined.

(* ================================================================== *)
(** * Further properties of the code *)

(** ** Sorting of the tag list *)

Lemma string_leb_trans a b c :
  String.leb a b = true -> String.leb b c = true -> String.leb a c = true.
Proof.
  unfold String.leb.
  destruct (String.compare a b) eqn:E1; try discriminate;
  destruct (String.compare b c) eqn:E2; try discriminate; intros _ _.
  - apply String.compare_eq_iff in E1. subst b. now rewrite E2.
  - apply String.compare_eq_iff in E1. subst b. now rewrite E2.
  - apply String.compare_eq_iff in E2. subst c. now rewrite E1.
  - now rewrite (string_compare_lt_trans _ _ _ E1 E2).
Qed.

Lemma string_leb_neq_ltb a b :
  String.leb a b = true -> a <> b -> String.ltb a b = true.
Proof.
  unfold String.leb, String.ltb. destruct (String.compare a b) eqn:E; auto.
  intros _ Hne. apply String.compare_eq_iff in E. contradiction.
Qed.

Lemma string_leb_false a b : String.leb a b = false -> String.leb b a = true.
Proof.
  intros H. destruct (String.leb_total a b) as [H'|H']; [congruence|exact H'].
Qed.

Lemma insert_str_sorted x l : Sorted str_le l -> Sorted str_le (insert_str x l).
Proof.
  induction 1 as [|y rest Hs IH Hhd]; simpl.
  - repeat constructor.
  - destruct (String.leb x y) eqn:E.
    + constructor; [constructor; assumption|constructor; exact E].
    + constructor; [exact IH|].
      destruct rest as [|z rest']; simpl; [constructor; now apply string_leb_false|].
      inversion Hhd; subst.
      destruct (String.leb x z); constructor; [now apply string_leb_false|assumption].
Qed.

Lemma sort_str_sorted l : Sorted str_le (sort_str l).
Proof. induction l; simpl; [constructor|now apply insert_str_sorted]. Qed.

Lemma strongly_sorted_strict l :
  StronglySorted str_le l -> NoDup l -> StronglySorted str_lt l.
Proof.
  induction 1 as [|x rest Hs IH Hall]; intros Hnd; constructor.
  - inversion Hnd; auto.
  - inversion Hnd as [|? ? Hx _]; subst. rewrite Forall_forall in *.
    intros y Hy. apply string_leb_neq_ltb; [now apply Hall|].
    intros ->. contradiction.
Qed.

Lemma strict_sorted_unique l1 l2 :
  StronglySorted str_lt l1 -> StronglySorted str_lt l2 ->
  (forall x, In x l1 <-> In x l2) -> l1 = l2.
Proof.
  revert l2. induction l1 as [|a r1 IH]; intros [|b r2] H1 H2 Hx.
  - reflexivity.
  - destruct (proj2 (Hx b) (or_introl eq_refl)).
  - destruct (proj1 (Hx a) (or_introl eq_refl)).
  - inversion H1 as [|? ? Hs1 Ha]; inversion H2 as [|? ? Hs2 Hb]; subst.
    rewrite Forall_forall in Ha, Hb.
    assert (Hab : a = b).
    { destruct (proj1 (Hx a) (or_introl eq_refl)) as [|Ha2]; [congruence|].
      destruct (proj2 (Hx b) (or_introl eq_refl)) as [|Hb1]; [congruence|].
      pose proof (string_ltb_trans _ _ _ (Hb _ Ha2) (Ha _ Hb1)) as Hbb.
      unfold str_lt in Hbb. rewrite string_ltb_irrefl in Hbb. discriminate. }
    subst b. f_equal. apply IH; [assumption|assumption|].
    intros x. specialize (Hx x). simpl in Hx. split; intros Hin.
    + destruct (proj1 Hx (or_intror Hin)) as [<-|H]; [|exact H].
      pose proof (Ha _ Hin) as Haa. unfold str_lt in Haa.
      rewrite string_ltb_irrefl in Haa. discriminate.
    + destruct (proj2 Hx (or_intror Hin)) as [<-|H]; [|exact H].
      pose proof (Hb _ Hin) as Haa. unfold str_lt in Haa.
      rewrite string_ltb_irrefl in Haa. discriminate.
Qed.

Lemma first_tags_In entries avail t :
  first_tags entries = Some avail ->
  (In t avail <-> exists e rest, In e entries /\ tags e = Some (t :: rest)).
Proof.
  revert avail. induction entries as [|e es IH]; intros avail H; simpl in H.
  - injection H as <-. split; [intros []|intros [e [rest [[] _]]]].
  - destruct (tags e) as [[|x xs]|] eqn:Et; [discriminate| |].
    + destruct (first_tags es) as [l|] eqn:El; [|discriminate].
      injection H as <-. simpl. rewrite (IH l eq_refl). split.
      * intros [<-|[e' [r [Hin Ht]]]].
        -- exists e, xs. split; [now left|exact Et].
        -- exists e', r. split; [now right|exact Ht].
      * intros [e' [r [[<-|Hin] Ht]]].
        -- left. rewrite Et in Ht. congruence.
        -- right. exists e', r. auto.
    + rewrite (IH avail H). split.
      * intros [e' [r [Hin Ht]]]. exists e', r. split; [now right|exact Ht].
      * intros [e' [r [[<-|Hin] Ht]]]; [congruence|]. exists e', r. auto.
Qed.

Lemma first_tags_None entries :
  first_tags entries = None <-> exists e, In e entries /\ tags e = Some [].
Proof.
  induction entries as [|e es IH]; simpl.
  - split; [discriminate|intros [e [[] _]]].
  - destruct (tags e) as [[|x xs]|] eqn:Et.
    + split; [intros _; exists e; auto|reflexivity].
    + destruct (first_tags es) eqn:El.
      * split; [discriminate|]. intros [e' [[<-|Hin] Ht]]; [congruence|].
        discriminate (proj2 IH (ex_intro _ e' (conj Hin Ht))).
      * split; [|reflexivity]. intros _.
        destruct (proj1 IH eq_refl) as [e' [Hin Ht]]. exists e'. auto.
    + rewrite IH. split.
      * intros [e' [Hin Ht]]. exists e'. auto.
      * intros [e' [[<-|Hin] Ht]]; [congruence|]. exists e'. auto.
Qed.

Lemma find_tags_sorted_In entries tag_list :
  find_tags entries = Some tag_list ->
  StronglySorted str_lt tag_list /\
  (forall t, In t tag_list <->
     t = "none"%string \/ exists e rest, In e entries /\ tags e = Some (t :: rest)).
Proof.
  unfold find_tags. destruct (first_tags entries) as [avail|] eqn:Ef; [|discriminate].
  intros H. injection H as <-. split.
  - apply strongly_sorted_strict.
    + apply Sorted_StronglySorted; [intros a b c; apply string_leb_trans|].
      apply sort_str_sorted.
    + eapply Permutation_NoDup; [symmetry; apply sort_str_perm|apply dedup_NoDup].
  - intros t. split.
    + intros Hin. apply (Permutation_in _ (sort_str_perm _)), dedup_In, in_app_or in Hin.
      destruct Hin as [Hin|[<-|[]]]; [right|now left].
      now apply (first_tags_In _ _ _ Ef).
    + intros Ht. apply (Permutation_in _ (Permutation_sym (sort_str_perm _))),
        dedup_In, in_or_app.
      destruct Ht as [->|Ht]; [right; now left|left].
      now apply (first_tags_In _ _ _ Ef).
Qed.

(** [find_tags] returns a strictly increasing list (so without repeats)
    that holds ["none"] and exactly the first tags of the entries that have
    a [tags] key. *)
Theorem find_tags_spec entries tag_list :
  find_tags entries = Some tag_list ->
  StronglySorted (fun a b => String.ltb a b = true) tag_list /\
  In "none"%string tag_list /\
  (forall t, In t tag_list <->
     t = "none"%string \/ exists e rest, In e entries /\ tags e = Some (t :: rest)).
Proof.
  intros H. destruct (find_tags_sorted_In _ _ H) as [Hs Hin].
  split; [exact Hs|split; [apply Hin; now left|exact Hin]].
Qed.

Lemma find_tags_None entries :
  find_tags entries = None <-> exists e, In e entries /\ tags e = Some [].
Proof.
  rewrite <- first_tags_None. unfold find_tags.
  destruct (first_tags entries); split; congruence.
Qed.

(** [find_tags] raises exactly when some entry has an empty [tags] list. *)
Theorem find_tags_fails_iff entries :
  find_tags entries = None <-> exists e, In e entries /\ tags e = Some [].
Proof. exact (find_tags_None entries). Qed.

(** [find_tags] does not depend on the order of the entries. *)
Theorem find_tags_permutation entries entries' :
  Permutation entries entries' -> find_tags entries = find_tags entries'.
Proof.
  intros Hp.
  destruct (find_tags entries) as [l|] eqn:E; destruct (find_tags entries') as [l'|] eqn:E'.
  - f_equal. apply strict_sorted_unique.
    + exact (proj1 (find_tags_sorted_In _ _ E)).
    + exact (proj1 (find_tags_sorted_In _ _ E')).
    + intros x. rewrite (proj2 (find_tags_sorted_In _ _ E)),
        (proj2 (find_tags_sorted_In _ _ E')).
      split; intros [H|[e [r [Hin Ht]]]]; auto; right; exists e, r; split; auto.
      * now apply (Permutation_in _ Hp).
      * now apply (Permutation_in _ (Permutation_sym Hp)).
  - apply find_tags_None in E'. destruct E' as [e [Hin Ht]].
    assert (find_tags entries = None) by
      (apply find_tags_None; exists e; split; [apply (Permutation_in _ (Permutation_sym Hp) Hin)|exact Ht]).
    congruence.
  - apply find_tags_None in E. destruct E as [e [Hin Ht]].
    assert (find_tags entries' = None) by
      (apply find_tags_None; exists e; split; [apply (Permutation_in _ Hp Hin)|exact Ht]).
    congruence.
  - reflexivity.
Qed.

(** ** The color map's keys *)

Lemma color_comprehension_keys len index tag_list acc :
  NoDup tag_list ->
  (forall t, In t tag_list -> ~ In t (map fst acc)) ->
  map fst (color_comprehension len index tag_list acc) =
  map fst acc ++ filter (fun t => negb (String.eqb t "none")) tag_list.
Proof.
  revert index acc. induction tag_list as [|t rest IH]; intros index acc Hnd Hfr; simpl.
  - now rewrite app_nil_r.
  - inversion Hnd as [|? ? Ht Hnd']; subst.
    destruct (String.eqb t "none") eqn:En; simpl.
    + apply IH; [exact Hnd'|]. intros t' Hin. apply Hfr. now right.
    + rewrite (dict_set_fresh String.eqb string_eqb_spec) by (apply Hfr; now left).
      rewrite IH.
      * rewrite map_app, <- app_assoc. reflexivity.
      * exact Hnd'.
      * intros t' Hin Hk. rewrite map_app, in_app_iff in Hk.
        destruct Hk as [Hk|[Hk|[]]]; [exact (Hfr t' (or_intror Hin) Hk)|].
        simpl in Hk. subst. contradiction.
Qed.

Lemma color_map_keys tag_list :
  NoDup tag_list ->
  map fst (calc_color_map tag_list) =
  filter (fun t => negb (String.eqb t "none")) tag_list ++ ["none"%string].
Proof.
  intros Hnd. unfold calc_color_map.
  rewrite (dict_set_fresh String.eqb string_eqb_spec).
  - rewrite map_app, color_comprehension_keys; [reflexivity|exact Hnd|intros t _ []].
  - rewrite color_comprehension_keys; [|exact Hnd|intros t _ []].
    simpl. intros Hin. apply filter_In in Hin as [_ Hin].
    rewrite String.eqb_refl in Hin. discriminate.
Qed.

(** For a tag list without repeats, the keys of [calc_color_map], in
    insertion order, are the tags other than ["none"] in list order,
    followed by ["none"]. *)
Theorem calc_color_map_keys tag_list :
  NoDup tag_list ->
  map fst (calc_color_map tag_list) =
  filter (fun t => negb (String.eqb t "none")) tag_list ++ ["none"%string].
Proof. exact (color_map_keys tag_list). Qed.

Lemma calc_color_map_has_color tag_list t :
  In t tag_list -> exists c, dict_get String.eqb t (calc_color_map tag_list) = Some c.
Proof.
  intros Hin. unfold calc_color_map.
  destruct (String.eqb_spec t "none") as [->|Hne].
  - eexists. apply dict_get_set_same, string_eqb_spec.
  - rewrite dict_get_set_other by (exact string_eqb_spec || exact Hne).
    assert (H : forall len index acc, In t tag_list ->
      exists c, dict_get String.eqb t (color_comprehension len index tag_list acc) = Some c).
    { clear Hin. induction tag_list as [|x rest IH]; intros len index acc Hin;
        [destruct Hin|]. simpl.
      destruct (in_dec string_dec t rest) as [Hr|Hr]; [now apply IH|].
      destruct Hin as [->|Hin]; [|contradiction].
      rewrite color_comprehension_notin by exact Hr.
      destruct (String.eqb_spec t "none"); [contradiction|].
      eexists. apply dict_get_set_same, string_eqb_spec. }
    now apply H.
Qed.

(** ** [min] by [creationDate] *)

Lemma min_from_split cur rest e :
  min_from cur rest = e ->
  exists pre post, cur :: rest = pre ++ e :: post /\
    Forall (fun x => String.ltb (creationDate e) (creationDate x) = true) pre /\
    Forall (fun x => String.ltb (creationDate x) (creationDate e) = false) post.
Proof.
  revert cur. induction rest as [|x r IH]; intros cur H; simpl in H.
  - subst. exists [], []. auto.
  - destruct (String.ltb (creationDate x) (creationDate cur)) eqn:Exc.
    + destruct (IH x H) as [pre [post [Hsp [Hpre Hpost]]]].
      exists (cur :: pre), post. split; [now rewrite Hsp|]. split; [|exact Hpost].
      constructor; [|exact Hpre].
      destruct pre as [|y pre'].
      * injection Hsp as -> _. exact Exc.
      * injection Hsp as -> _. apply Forall_cons_iff in Hpre as [Hey _].
        eapply string_ltb_trans; eassumption.
    + destruct (IH cur H) as [pre [post [Hsp [Hpre Hpost]]]].
      destruct pre as [|y pre'].
      * injection Hsp as -> ->. exists [], (x :: post). split; [reflexivity|].
        split; [constructor|]. constructor; [exact Exc|exact Hpost].
      * injection Hsp as -> Hr. apply Forall_cons_iff in Hpre as [Hey Hpre'].
        exists (y :: x :: pre'), post. split; [rewrite Hr; reflexivity|]. split; [|exact Hpost].
        constructor; [exact Hey|]. constructor; [|exact Hpre'].
        eapply string_ltb_not_lt_trans; eassumption.
Qed.

(** [min(entries, key=creationDate)] returns the first entry with the
    least [creationDate]: every entry before it has a greater key, none
    after it has a smaller one. *)
Theorem min_by_creationDate_first entries e :
  min_by_creationDate entries = Some e ->
  exists pre post, entries = pre ++ e :: post /\
    Forall (fun x => String.ltb (creationDate e) (creationDate x) = true) pre /\
    Forall (fun x => String.ltb (creationDate x) (creationDate e) = false) post.
Proof.
  destruct entries as [|cur rest]; simpl; [discriminate|].
  intros H. injection H as H. now apply min_from_split.
Qed.

(** ** When the views fail *)

Lemma map_option_None {A B} (f : A -> option B) l :
  map_option f l = None <-> exists x, In x l /\ f x = None.
Proof.
  induction l as [|x rest IH]; simpl.
  - split; [discriminate|intros [x [[] _]]].
  - destruct (f x) eqn:Ef.
    + destruct (map_option f rest) eqn:Er.
      * split; [discriminate|]. intros [y [[<-|Hin] Hy]]; [congruence|].
        discriminate (proj2 IH (ex_intro _ y (conj Hin Hy))).
      * split; [|reflexivity]. intros _.
        destruct (proj1 IH eq_refl) as [y [Hin Hy]]. exists y. auto.
    + split; [|reflexivity]. intros _. exists x. auto.
Qed.

Lemma entry_tag_None e : entry_tag e = None <-> tags e = Some [].
Proof. unfold entry_tag. destruct (tags e) as [[|x xs]|]; split; congruence. Qed.

Lemma DotPlot_parse_None off tag_list entries :
  (forall e t, In e entries -> entry_tag e = Some t -> In t tag_list) ->
  DotPlot.parse_entries off (calc_color_map tag_list) entries = None <->
  entries = [] \/ exists e, In e entries /\ bad_entry off e.
Proof.
  intros Hcov. unfold DotPlot.parse_entries.
  destruct (min_by_creationDate entries) as [earliest|] eqn:Em.
  2:{ destruct entries; [|discriminate]. split; auto. }
  assert (Hne : entries <> []) by (intros ->; discriminate).
  pose proof (min_by_creationDate_In _ _ Em) as Hein.
  split.
  - intros H. right.
    destruct (str_to_date off (creationDate earliest)) as [x_0|] eqn:Ex.
    2:{ exists earliest. split; [exact Hein|right; exact Ex]. }
    destruct (map_option _ entries) eqn:Emo; [discriminate|].
    apply map_option_None in Emo as [e [Hin He]]. exists e. split; [exact Hin|].
    unfold DotPlot.entry_info in He. unfold bad_entry.
    destruct (str_to_date off (creationDate e)) eqn:Ed; [|now right].
    destruct (entry_tag e) as [t|] eqn:Et; [|now left].
    destruct (calc_color_map_has_color tag_list t (Hcov e t Hin Et)) as [c Hc].
    rewrite Hc in He. discriminate.
  - intros [->|[e [Hin Hbad]]]; [contradiction|].
    destruct (str_to_date off (creationDate earliest)) as [x_0|] eqn:Ex; [|reflexivity].
    replace (map_option _ entries) with (@None (list Dot)); [reflexivity|].
    symmetry. apply map_option_None. exists e. split; [exact Hin|].
    unfold DotPlot.entry_info. destruct Hbad as [Hb|Hb]; rewrite Hb; [|reflexivity].
    destruct (str_to_date off (creationDate e)); reflexivity.
Qed.

Lemma Histogram_parse_None off tag_list entries :
  (forall e t, In e entries -> entry_tag e = Some t -> In t tag_list) ->
  Histogram.parse_entries off (calc_color_map tag_list) entries = None <->
  entries = [] \/ exists e, In e entries /\ bad_entry off e.
Proof.
  intros Hcov. unfold Histogram.parse_entries.
  destruct (min_by_creationDate entries) as [earliest|] eqn:Em.
  2:{ destruct entries; [|discriminate]. split; auto. }
  assert (Hne : entries <> []) by (intros ->; discriminate).
  pose proof (min_by_creationDate_In _ _ Em) as Hein.
  split.
  - intros H. right.
    destruct (str_to_date off (creationDate earliest)) as [x_0|] eqn:Ex.
    2:{ exists earliest. split; [exact Hein|right; exact Ex]. }
    destruct (map_option _ entries) eqn:Emo; [discriminate|].
    apply map_option_None in Emo as [e [Hin He]]. exists e. split; [exact Hin|].
    unfold Histogram.entry_info in He. unfold bad_entry.
    destruct (str_to_date off (creationDate e)) eqn:Ed; [|now right].
    destruct (entry_tag e) as [t|] eqn:Et; [|now left].
    destruct (calc_color_map_has_color tag_list t (Hcov e t Hin Et)) as [c Hc].
    rewrite Hc in He. discriminate.
  - intros [->|[e [Hin Hbad]]]; [contradiction|].
    destruct (str_to_date off (creationDate earliest)) as [x_0|] eqn:Ex; [|reflexivity].
    replace (map_option _ entries) with (@None (list Dot)); [reflexivity|].
    symmetry. apply map_option_None. exists e. split; [exact Hin|].
    unfold Histogram.entry_info. destruct Hbad as [Hb|Hb]; rewrite Hb; [|reflexivity].
    destruct (str_to_date off (creationDate e)); reflexivity.
Qed.

(** building either view's points fails exactly when there is no
    entry, or some entry has an empty [tags] list or a [creationDate] that
    [str_to_date] rejects; a color is always found. *)
Theorem views_fail_iff off entries :
  (DotPlot.init off entries = None <->
   entries = [] \/ exists e, In e entries /\
     (tags e = Some [] \/ str_to_date off (creationDate e) = None)) /\
  (match find_tags entries with
   | Some tag_list => Histogram.parse_entries off (calc_color_map tag_list) entries
   | None => None
   end = None <->
   entries = [] \/ exists e, In e entries /\
     (tags e = Some [] \/ str_to_date off (creationDate e) = None)).
Proof.
  unfold DotPlot.init. destruct (find_tags entries) as [tag_list|] eqn:Ef.
  - destruct (find_tags_covers _ _ Ef) as [_ Hcov].
    rewrite DotPlot_parse_None, Histogram_parse_None by exact Hcov.
    unfold bad_entry. setoid_rewrite entry_tag_None. split; reflexivity.
  - apply find_tags_None in Ef. destruct Ef as [e [Hin Ht]].
    split; split; auto; intros _; right; exists e; auto.
Qed.

(** ** When the hour table fails *)

Section HistFail.
Import Histogram.

Lemma count_dots_None tag_name f dots :
  count_dots tag_name (tf_of f) dots = None <->
  exists d, In d dots /\ in_datetime_range (y_value d) = false.
Proof.
  revert f. induction dots as [|d rest IH]; intros f; cbn [count_dots].
  - split; [discriminate|intros [d [[] _]]].
  - unfold num2date. destruct (in_datetime_range (y_value d)) eqn:Er.
    2:{ split; [intros _; exists d; simpl; intuition|intros _; reflexivity]. }
    cbv beta iota. pose proof (hour_of_bounds (y_value d)).
    destruct (String.eqb d.(tag) tag_name); cbv beta iota.
    + rewrite dict_get_tf_of by lia. cbv beta iota.
      rewrite dict_set_tf_of by lia. rewrite IH. split.
      * intros [d' [Hin Hd]]. exists d'. simpl; intuition.
      * intros [d' [[<-|Hin] Hd]]; [congruence|]. exists d'. simpl; intuition.
    + rewrite IH. split.
      * intros [d' [Hin Hd]]. exists d'. simpl; intuition.
      * intros [d' [[<-|Hin] Hd]]; [congruence|]. exists d'. simpl; intuition.
Qed.

Lemma key_hours_None start l acc :
  key_hours start l acc = None <->
  exists p, In p l /\ in_datetime_range (start + 3600 * fst p) = false.
Proof.
  revert acc. induction l as [|[h n] rest IH]; intros acc; cbn [key_hours].
  - split; [discriminate|intros [p [[] _]]].
  - destruct (in_datetime_range (start + 3600 * h)) eqn:Er.
    + rewrite IH. split.
      * intros [p [Hin Hp]]. exists p. simpl; intuition.
      * intros [p [[<-|Hin] Hp]]; [cbn [fst] in Hp; congruence|]. exists p. simpl; intuition.
    + split; [intros _; exists (h, n); simpl; intuition|intros _; reflexivity].
Qed.

Lemma in_datetime_range_convex a b t :
  a <= t <= b -> in_datetime_range a = true -> in_datetime_range b = true ->
  in_datetime_range t = true.
Proof.
  unfold in_datetime_range. rewrite !andb_true_iff, !Z.leb_le, !Z.ltb_lt. lia.
Qed.

Lemma key_hours_tf_None start f :
  key_hours start (tf_of f) [] = None <->
  in_datetime_range start = false \/ in_datetime_range (start + 86400) = false.
Proof.
  rewrite key_hours_None. split.
  - intros [[h n] [Hin Hr]]. unfold tf_of in Hin. apply in_map_iff in Hin as [i [E Hi]].
    injection E as <- _. apply In_hours25 in Hi. cbn [fst] in Hr.
    destruct (in_datetime_range start) eqn:E1; [|now left].
    destruct (in_datetime_range (start + 86400)) eqn:E2; [|now right].
    rewrite (in_datetime_range_convex start (start + 86400)) in Hr by (auto; lia).
    discriminate.
  - intros [H|H]; [exists (0, f 0)|exists (24, f 24)]; cbn [fst];
      (split; [unfold tf_of; apply in_map_iff; eexists; split; [reflexivity|apply In_hours25; lia]|]);
      [rewrite Z.add_0_r; exact H|exact H].
Qed.

Lemma gen_loop_None tag_list dots x_0 freq :
  gen_loop tag_list dots x_0 freq = None <-> tag_list <> [] /\ hist_bad dots x_0.
Proof.
  revert freq. induction tag_list as [|t rest IH]; intros freq; cbn [gen_loop].
  - split; [discriminate|intros [H _]; congruence].
  - unfold num2date, hist_bad. destruct (in_datetime_range (int_day x_0)) eqn:Es.
    2:{ split; [intros _; split; [discriminate|now left]|intros _; reflexivity]. }
    cbv beta iota. rewrite empty_tag_freq_tf.
    destruct (count_dots t (tf_of (fun _ => 0%nat)) dots) as [tf|] eqn:Ec.
    2:{ apply count_dots_None in Ec. split; [intros _; split; [discriminate|auto]|intros _; reflexivity]. }
    cbv beta iota. pose proof Ec as Ec'. apply count_dots_spec in Ec'. subst tf.
    destruct (key_hours (int_day x_0) _ []) as [res|] eqn:Ek.
    2:{ apply key_hours_tf_None in Ek. split; [intros _; split; [discriminate|]|intros _; reflexivity].
        destruct Ek; [congruence|auto]. }
    cbv beta iota. rewrite IH. unfold hist_bad.
    assert (Hnc : ~ exists d, In d dots /\ in_datetime_range (y_value d) = false).
    { rewrite <- (count_dots_None t (fun _ => 0%nat)). congruence. }
    assert (Hnk : in_datetime_range (int_day x_0 + 86400) = true).
    { destruct (in_datetime_range (int_day x_0 + 86400)) eqn:E; [reflexivity|].
      assert (key_hours (int_day x_0) (tf_of (fun i => (0 + count_tag_hour t i dots)%nat)) []
              = None) by (apply key_hours_tf_None; now right). congruence. }
    split.
    + intros [_ [H|[H|H]]]; congruence || contradiction.
    + intros [_ [H|[H|H]]]; congruence || contradiction.
Qed.

End HistFail.

(** the hour table fails (a [ValueError] from [num2date] or an
    [OverflowError] from the hour arithmetic) exactly when the tag list is
    not empty and the origin's day, the day after it, or some dot's
    [y_value = int(x_0) + date2num(date)] is outside [datetime]'s range of
    years 1 to 9999. *)
Theorem gen_hour_histogram_data_fails_iff tag_list dots x_0 :
  Histogram.gen_hour_histogram_data tag_list dots x_0 = None <->
  tag_list <> [] /\
  (Histogram.in_datetime_range (int_day x_0) = false \/
   Histogram.in_datetime_range (int_day x_0 + 86400) = false \/
   exists d, In d dots /\ Histogram.in_datetime_range (y_value d) = false).
Proof. apply gen_loop_None. Qed.

(** ** Stacking the bars *)

Section Stack.
Import Histogram.

Lemma vadd_length a b : List.length (vadd a b) = Nat.min (List.length a) (List.length b).
Proof.
  revert b. induction a as [|x a IH]; intros [|y b]; simpl; auto.
Qed.

Lemma vadd_map {A} (l : list A) f g :
  vadd (map f l) (map g l) = map (fun i => (f i + g i)%nat) l.
Proof. induction l; simpl; congruence. Qed.

Lemma vadd_repeat0 h : vadd (repeat 0%nat (List.length h)) h = h.
Proof. induction h; simpl; congruence. Qed.

Lemma vsum_app1 n hs h : vsum n (hs ++ [h]) = vadd (vsum n hs) h.
Proof. unfold vsum. now rewrite fold_left_app. Qed.

Lemma vsum_length n hs :
  (forall h, In h hs -> List.length h = n) -> List.length (vsum n hs) = n.
Proof.
  unfold vsum. assert (Hr : List.length (repeat 0%nat n) = n) by apply repeat_length.
  revert Hr. generalize (repeat 0%nat n). induction hs as [|h hs IH]; intros acc Hacc Hh;
    simpl; [exact Hacc|].
  apply IH; [|intros; apply Hh; now right].
  rewrite vadd_length, Hacc, (Hh h (or_introl eq_refl)). apply Nat.min_id.
Qed.

Lemma plot_loop_spec cm n data bars total :
  (forall p, In p data -> List.length (snd p) = n) ->
  (forall p, In p data -> exists c, dict_get String.eqb (fst p) cm = Some c) ->
  (bars = [] \/ total = vsum n (map bar_height bars)) ->
  (forall b, In b bars -> List.length (bar_height b) = n) ->
  exists newbars total', plot_loop cm data bars total = Some (bars ++ newbars, total') /\
    Forall2 (bar_of cm) data newbars /\
    forall i b, nth_error newbars i = Some b ->
      bar_bottom b = match bars ++ firstn i newbars with
                     | [] => None
                     | prev => Some (vsum n (map bar_height prev))
                     end.
Proof.
  revert bars total. induction data as [|[t tf] rest IH]; intros bars total Hlen Hcol Htot Hbl.
  - exists [], total. rewrite app_nil_r. split; [reflexivity|]. split; [constructor|].
    intros [|i] b H; discriminate.
  - destruct (Hcol (t, tf) (or_introl eq_refl)) as [c Hc]. cbn [fst] in Hc.
    pose proof (Hlen (t, tf) (or_introl eq_refl)) as Htf. cbn [snd] in Htf.
    assert (Hlen' : forall p, In p rest -> List.length (snd p) = n) by auto with datatypes.
    assert (Hcol' : forall p, In p rest -> exists c, dict_get String.eqb (fst p) cm = Some c)
      by auto with datatypes.
    cbn [plot_loop]. rewrite Hc.
    set (b := mkBar (map fst tf) (map snd tf) t c
                    (match bars with [] => None | _ => Some total end)).
    assert (Hbar : bar_of cm (t, tf) b) by (unfold bar_of; simpl; auto).
    assert (Hbl' : forall b', In b' (bars ++ [b]) -> List.length (bar_height b') = n).
    { intros b' Hin. apply in_app_or in Hin as [Hin|[<-|[]]]; [auto|].
      simpl. now rewrite length_map. }
    destruct bars as [|b0 bs].
    + cbv iota zeta. unfold np_iadd. rewrite repeat_length, Nat.eqb_refl, vadd_repeat0.
      destruct (IH [b] (map snd tf) Hlen' Hcol') as [nb [tot [Hrun [Hf Hbot]]]].
      * right. unfold vsum. simpl. rewrite <- Htf, <- (length_map snd tf), vadd_repeat0.
        reflexivity.
      * exact Hbl'.
      * exists (b :: nb), tot. split; [exact Hrun|]. split; [constructor; assumption|].
        intros [|i] b' Hi; simpl in Hi.
        -- injection Hi as <-. reflexivity.
        -- rewrite (Hbot i b' Hi). reflexivity.
    + destruct Htot as [Htot|Htot]; [discriminate|].
      assert (Hvl : List.length total = n).
      { rewrite Htot. apply vsum_length. intros h Hh. apply in_map_iff in Hh as [b' [<- Hb']].
        now apply Hbl. }
      unfold broadcastable. rewrite length_map, Htf, Hvl, Nat.eqb_refl. cbn [orb].
      unfold np_iadd. rewrite length_map, Htf, Hvl, Nat.eqb_refl.
      destruct (IH ((b0 :: bs) ++ [b]) (vadd total (map snd tf)) Hlen' Hcol')
        as [nb [tot [Hrun [Hf Hbot]]]].
      * right. rewrite map_app. change (map bar_height [b]) with [bar_height b]. rewrite vsum_app1, <- Htot. reflexivity.
      * exact Hbl'.
      * exists (b :: nb), tot. split; [etransitivity; [exact Hrun|]; rewrite <- app_assoc; reflexivity|].
        split; [constructor; assumption|].
        intros [|i] b' Hi; simpl in Hi.
        -- injection Hi as <-. simpl. rewrite app_nil_r, Htot. reflexivity.
        -- rewrite (Hbot i b' Hi), <- app_assoc. reflexivity.
Qed.

End Stack.

Section Stack2.
Import Histogram.

Lemma bar_of_heights cm data bars :
  Forall2 (bar_of cm) data bars ->
  map bar_height bars = map (fun p => map snd (snd p)) data /\
  map bar_label bars = map fst data /\
  map bar_x bars = map (fun p => map fst (snd p)) data.
Proof.
  induction 1 as [|p b ps bs [Hl [Hx [Hh _]]] _ [IH1 [IH2 IH3]]]; [auto|].
  simpl. rewrite Hl, Hx, Hh, IH1, IH2, IH3. auto.
Qed.

Lemma fold_vadd_series {A} (l : list A) (g : string -> A -> nat) ts acc :
  fold_left vadd (map (fun t => map (g t) l) ts) (map acc l) =
  map (fun i => (acc i + sum_tags (fun t => g t i) ts)%nat) l.
Proof.
  revert acc. induction ts as [|t ts IH]; intros acc; simpl.
  - apply map_ext. intros. lia.
  - rewrite vadd_map, IH. apply map_ext. intros. lia.
Qed.

Lemma plot_histogram_spec cm n data :
  (forall p, In p data -> List.length (snd p) = n) ->
  (forall p, In p data -> exists c, dict_get String.eqb (fst p) cm = Some c) ->
  exists bars, plot_histogram cm data = Some bars /\ Forall2 (bar_of cm) data bars /\
    forall i b, nth_error bars i = Some b ->
      bar_bottom b = match firstn i bars with
                     | [] => None
                     | prev => Some (vsum n (map bar_height prev))
                     end.
Proof.
  intros Hlen Hcol.
  destruct (plot_loop_spec cm n data [] [] Hlen Hcol (or_introl eq_refl) (fun _ H => match H with end))
    as [bars [tot [Hrun [Hf Hbot]]]].
  exists bars. unfold plot_histogram. rewrite Hrun. auto.
Qed.

(** [plot_histogram] raises ([KeyError]) when some tag of the data has no
    color in the color map. *)
Theorem plot_histogram_missing_color cm data p :
  In p data -> dict_get String.eqb (fst p) cm = None -> plot_histogram cm data = None.
Proof.
  unfold plot_histogram. intros Hin Hnone.
  assert (H : forall bars total, plot_loop cm data bars total = None).
  { induction data as [|[t tf] rest IH]; [destruct Hin|]. intros bars total.
    destruct Hin as [<-|Hin].
    - cbn [plot_loop]. cbn [fst] in Hnone. now rewrite Hnone.
    - cbn [plot_loop]. destruct (dict_get String.eqb t cm) as [c|]; [|reflexivity].
      cbv beta iota zeta.
      destruct (match bars with [] => _ | _ :: _ => _ end) as [[tb th]|]; [|reflexivity].
      destruct (np_iadd th (map snd tf)); [|reflexivity]. now apply IH. }
  now rewrite H.
Qed.

(** On the histogram's own data, [plot_histogram] succeeds, draws one bar
    series per tag in tag order at the 25 hour markers, stacks each series
    on the sum of the earlier ones, and the stacked total at each hour [h]
    is the number of entries whose local hour is [h]. *)
Theorem histogram_stack_totals off entries tag_list dots x_0 freq :
  find_tags entries = Some tag_list ->
  parse_entries off (calc_color_map tag_list) entries = Some (dots, x_0) ->
  gen_hour_histogram_data tag_list dots x_0 = Some freq ->
  exists bars, plot_histogram (calc_color_map tag_list) freq = Some bars /\
    map bar_label bars = tag_list /\
    Forall (fun b => bar_x b = map (fun h => int_day x_0 + 3600 * h) hours25) bars /\
    (forall i b, nth_error bars i = Some b ->
       bar_bottom b = match firstn i bars with
                      | [] => None
                      | prev => Some (vsum 25 (map bar_height prev))
                      end) /\
    vsum 25 (map bar_height bars) = map (fun h => count_entries_at_hour off h entries) hours25.
Proof.
  intros Hft Hp Hg.
  destruct (find_tags_covers _ _ Hft) as [Hnd Hcov].
  destruct (Histogram_parse_entries_rel _ _ _ _ _ Hp) as [_ Hrel].
  unfold gen_hour_histogram_data in Hg.
  apply gen_loop_spec in Hg; [|exact Hnd|intros t _ []]. cbn [app] in Hg. subst freq.
  destruct (plot_histogram_spec (calc_color_map tag_list) 25
              (map (fun t => (t, map (fun i => (int_day x_0 + 3600 * i, count_tag_hour t i dots))
                                     hours25)) tag_list))
    as [bars [Hrun [Hf Hbot]]].
  - intros p Hin. apply in_map_iff in Hin as [t [<- _]]. cbn [snd]. now rewrite length_map.
  - intros p Hin. apply in_map_iff in Hin as [t [<- Ht]]. cbn [fst].
    now apply calc_color_map_has_color.
  - destruct (bar_of_heights _ _ _ Hf) as [Hh [Hl Hx]].
    exists bars. split; [exact Hrun|]. split; [|split; [|split; [exact Hbot|]]].
    + rewrite Hl, map_map. apply map_id.
    + apply Forall_forall. intros b Hb.
      assert (Hb' : In (bar_x b) (map bar_x bars)) by (now apply in_map).
      rewrite Hx, map_map in Hb'. apply in_map_iff in Hb' as [t [<- _]].
      cbn [snd]. rewrite map_map. reflexivity.
    + rewrite Hh, map_map. cbn [snd]. unfold vsum.
      replace (map (fun x => map snd (map (fun i => (int_day x_0 + 3600 * i, count_tag_hour x i dots)) hours25)) tag_list)
        with (map (fun t => map (fun i => count_tag_hour t i dots) hours25) tag_list)
        by (apply map_ext; intros t; now rewrite map_map).
      change (repeat 0%nat 25) with (map (fun _ : Z => 0%nat) hours25).
      rewrite fold_vadd_series. apply map_ext_in. intros h Hh25. cbn [Nat.add].
      rewrite sum_count_tag_hour; [now apply (dots_hour_count _ x_0)|exact Hnd|].
      intros d Hd. destruct (Forall2_In_r _ _ _ _ Hrel Hd) as [e [He [t [_ [Ht _]]]]].
      exact (Hcov e _ He Ht).
Qed.

(** When every series has the same length [n] and every tag has a color,
    [plot_histogram] draws one bar series per item, in order, with the
    item's keys, values, tag and color; the first has no [bottom] and each
    later one sits on the elementwise sum of the earlier heights. *)
Theorem plot_histogram_stacks cm n data :
  (forall p, In p data -> List.length (snd p) = n) ->
  (forall p, In p data -> exists c, dict_get String.eqb (fst p) cm = Some c) ->
  exists bars, plot_histogram cm data = Some bars /\ Forall2 (bar_of cm) data bars /\
    forall i b, nth_error bars i = Some b ->
      bar_bottom b = match firstn i bars with
                     | [] => None
                     | prev => Some (vsum n (map bar_height prev))
                     end.
Proof. exact (plot_histogram_spec cm n data). Qed.

(** With the x limits of [format_hist_x_axis], a bar of width [0.025] days
    lies inside the visible range exactly when its key is not the hour-24
    marker; the hour-24 bar lies wholly to the right of it. *)
Theorem histogram_hour24_bar_hidden tag_list dots x_0 freq bars :
  NoDup tag_list ->
  gen_hour_histogram_data tag_list dots x_0 = Some freq ->
  plot_histogram (calc_color_map tag_list) freq = Some bars ->
  Forall (fun b => forall k, In k (bar_x b) ->
    (left x_0 <= k - bar_width / 2 /\ k + bar_width / 2 <= right x_0 <->
     k <> int_day x_0 + 86400) /\
    (k = int_day x_0 + 86400 -> right x_0 < k - bar_width / 2)) bars.
Proof.
  intros Hnd Hg Hp.
  unfold gen_hour_histogram_data in Hg.
  apply gen_loop_spec in Hg; [|exact Hnd|intros t _ []]. cbn [app] in Hg. subst freq.
  destruct (plot_histogram_spec (calc_color_map tag_list) 25
              (map (fun t => (t, map (fun i => (int_day x_0 + 3600 * i, count_tag_hour t i dots))
                                     hours25)) tag_list))
    as [bars' [Hrun [Hf _]]].
  - intros p Hin. apply in_map_iff in Hin as [t [<- _]]. cbn [snd]. now rewrite length_map.
  - intros p Hin. apply in_map_iff in Hin as [t [<- Ht]]. cbn [fst].
    now apply calc_color_map_has_color.
  - rewrite Hp in Hrun. injection Hrun as <-.
    destruct (bar_of_heights _ _ _ Hf) as [_ [_ Hx]].
    apply Forall_forall. intros b Hb k Hk.
    assert (Hb' : In (bar_x b) (map bar_x bars)) by (now apply in_map).
    rewrite Hx, map_map in Hb'. apply in_map_iff in Hb' as [t [Hbx _]].
    rewrite <- Hbx in Hk. cbn [snd] in Hk. rewrite map_map in Hk.
    apply in_map_iff in Hk as [h [<- Hh]]. apply In_hours25 in Hh.
    unfold left, right. change (bar_width / 2) with 1080. cbn [fst].
    split; [|lia]. split; [lia|]. intros Hne.
    lia.
Qed.

End Stack2.

(** Every dot of the dot plot lies inside the y range [[bottom, top)] that
    [format_dot_y_axis] sets. *)
Theorem dot_plot_y_in_range off cm entries dots x_0 :
  DotPlot.parse_entries off cm entries = Some (dots, x_0) ->
  Forall (fun d => DotPlot.bottom x_0 <= y_value d < DotPlot.top x_0) dots.
Proof.
  intros Hp. destruct (DotPlot_parse_entries_rel _ _ _ _ _ Hp) as [_ Hrel].
  apply Forall_forall. intros d Hd.
  destruct (Forall2_In_r _ _ _ _ Hrel Hd) as [e [_ [t [_ [_ [_ Hy]]]]]].
  unfold DotPlot.bottom, DotPlot.top. rewrite Hy.
  pose proof (Z.mod_pos_bound t 86400). lia.
Qed.

(** When the local zone's offset does not change between one day plus one
    offset before the instant and one offset after it, is under a day, and
    the instant lies at least a day after the start of year 1 and more than
    a day before the end of year 9999, [str_to_date] shifts the UTC reading
    by the offset at the entry's own instant. *)
Theorem str_to_date_stable_zone off s t :
  strptime s = Some t ->
  (forall u, t - Z.abs (off t) - 86400 <= u <= t + Z.abs (off t) -> off u = off t) ->
  Z.abs (off t) < 86400 ->
  datetime_in_range (t - 86400) = true -> datetime_in_range (t + 86400) = true ->
  str_to_date off s = Some (t + off t) /\ str_to_date_at_instant off s = Some (t + off t).
Proof.
  intros Hs Hz Hc Hlo Hhi.
  assert (Hl : forall u, t - Z.abs (off t) - 86400 <= u <= t + Z.abs (off t) ->
                 t - 86400 <= u + off t <= t + 86400 -> local off u = Some (u + off t)).
  { intros u Hu Hr. unfold local, local_time. rewrite (Hz u Hu).
    rewrite (datetime_in_range_between _ _ (u + off t) Hlo Hhi) by lia. reflexivity. }
  unfold str_to_date_at_instant. rewrite Hs. split; [|reflexivity].
  unfold str_to_date. rewrite Hs. cbv beta iota zeta.
  unfold naive_astimezone_offset, mktime.
  rewrite (Hl t) by lia. cbv beta iota zeta.
  replace (t + off t - t) with (off t) by ring.
  rewrite (Hl (t - off t)) by lia. cbv beta iota zeta.
  replace (t - off t + off t =? t) with true by (symmetry; apply Z.eqb_eq; ring).
  rewrite (Hl (t - off t - 86400)) by lia. cbv beta iota zeta.
  replace (t - off t - 86400 + off t - (t - off t - 86400)) with (off t) by ring.
  rewrite Z.eqb_refl. cbv beta iota zeta.
  rewrite (Hz (t - off t)) by lia.
  replace (negb (Z.abs (off t) <? 86400)) with false
    by (symmetry; apply negb_false_iff, Z.ltb_lt; exact Hc).
  rewrite (datetime_in_range_between _ _ (t - off t) Hlo Hhi) by lia.
  cbv beta iota zeta. rewrite (Hz (t - off t)) by lia.
  rewrite (datetime_in_range_between _ _ (t - off t + off t) Hlo Hhi) by lia.
  cbv [negb]; cbv beta iota zeta.
  rewrite (datetime_in_range_between _ _ (t + off t) Hlo Hhi) by lia.
  reflexivity.
Qed.

Lemma str_to_date_stable_zone_witness :
  strptime "2024-01-15T14:30:00Z" = Some 1705329000 /\
  str_to_date eastern_2024 "2024-01-15T14:30:00Z" =
    Some (1705329000 + eastern_2024 1705329000).
Proof.
  split; [vm_compute; reflexivity|].
  apply (proj1 (str_to_date_stable_zone eastern_2024 "2024-01-15T14:30:00Z" 1705329000
                  ltac:(vm_compute; reflexivity)
                  ltac:(intros u Hu;
                        replace (eastern_2024 1705329000) with (-18000) in *
                          by (vm_compute; reflexivity);
                        unfold eastern_2024;
                        replace (days_from_civil 2024 3 10 * 86400 + 7 * 3600)
                          with 1710054000 by (vm_compute; reflexivity);
                        destruct (Z.leb_spec 1710054000 u); [lia|reflexivity])
                  ltac:(vm_compute; reflexivity)
                  ltac:(vm_compute; reflexivity)
                  ltac:(vm_compute; reflexivity))).
Defined.

Lemma dict_get_In {V} (k : string) (v : V) d :
  dict_get String.eqb k d = Some v -> In (k, v) d.
Proof.
  induction d as [|[k' v'] rest IH]; simpl; [discriminate|].
  destruct (String.eqb_spec k k') as [->|_]; [intros H; injection H as ->; now left|].
  intros H. right. now apply IH.
Qed.

Lemma DotPlot_parse_colors off cm entries dots x_0 :
  DotPlot.parse_entries off cm entries = Some (dots, x_0) ->
  Forall (fun d => dict_get String.eqb (tag d) cm = Some (color d)) dots.
Proof.
  unfold DotPlot.parse_entries.
  destruct (min_by_creationDate entries) as [earliest|]; [|discriminate].
  destruct (str_to_date off (creationDate earliest)) as [x|]; [|discriminate].
  destruct (map_option _ entries) as [l|] eqn:El; [|discriminate].
  intros H. injection H as <- <-.
  apply map_option_Forall2 in El. apply Forall_forall. intros d Hd.
  destruct (Forall2_In_r _ _ _ _ El Hd) as [e [_ He]].
  unfold DotPlot.entry_info in He.
  destruct (str_to_date off (creationDate e)); [|discriminate].
  destruct (entry_tag e) as [tg|]; [|discriminate].
  destruct (dict_get String.eqb tg cm) eqn:Ec; [|discriminate].
  injection He as <-. exact Ec.
Qed.

(** The dot plot's legend labels are the tags other than ["none"] in order,
    then ["none"], each once; each handle carries its label, and every dot's
    (color, tag) pair is one of the handles. *)
Theorem dot_legend_matches_dots off entries tag_list dots x_0 :
  find_tags entries = Some tag_list ->
  DotPlot.parse_entries off (calc_color_map tag_list) entries = Some (dots, x_0) ->
  snd (DotPlot.add_dot_legend (calc_color_map tag_list)) =
    filter (fun t => negb (String.eqb t "none")) tag_list ++ ["none"%string] /\
  NoDup (snd (DotPlot.add_dot_legend (calc_color_map tag_list))) /\
  map DotPlot.line_label (fst (DotPlot.add_dot_legend (calc_color_map tag_list))) =
    snd (DotPlot.add_dot_legend (calc_color_map tag_list)) /\
  Forall (fun d => In (DotPlot.mkLine (color d) (tag d))
                      (fst (DotPlot.add_dot_legend (calc_color_map tag_list)))) dots.
Proof.
  intros Hft Hp. destruct (find_tags_covers _ _ Hft) as [Hnd _].
  unfold DotPlot.add_dot_legend. cbn [fst snd].
  rewrite color_map_keys by exact Hnd.
  split; [reflexivity|]. split; [|split].
  - apply NoDup_app.
    + apply NoDup_filter, Hnd.
    + repeat constructor. intros [].
    + intros t Ht [<-|[]]. apply filter_In in Ht as [_ Ht].
      rewrite String.eqb_refl in Ht. discriminate.
  - rewrite <- color_map_keys by exact Hnd. rewrite map_map.
    apply map_ext. intros [t c]. reflexivity.
  - apply DotPlot_parse_colors in Hp. eapply Forall_impl; [|exact Hp].
    intros d Hd. apply dict_get_In in Hd.
    apply (in_map (fun '(tag, c) => DotPlot.mkLine c tag)) in Hd. exact Hd.
Qed.

Lemma entry_info_agree off cm x_0 entries dots dots' :
  map_option (DotPlot.entry_info off cm x_0) entries = Some dots ->
  map_option (Histogram.entry_info off cm x_0) entries = Some dots' ->
  Forall2 (fun d d' => color d' = color d /\ tag d' = tag d /\ x_value d' = x_value d /\
                       y_value d' = y_value d + x_value d) dots dots'.
Proof.
  revert dots dots'. induction entries as [|e rest IH]; intros dots dots' H1 H2.
  - injection H1 as <-. injection H2 as <-. constructor.
  - cbn [map_option] in H1, H2.
    destruct (DotPlot.entry_info off cm x_0 e) as [d|] eqn:Ed; [|discriminate].
    destruct (Histogram.entry_info off cm x_0 e) as [d'|] eqn:Eh; [|discriminate].
    destruct (map_option (DotPlot.entry_info off cm x_0) rest) as [ds|]; [|discriminate].
    destruct (map_option (Histogram.entry_info off cm x_0) rest) as [ds'|]; [|discriminate].
    injection H1 as <-. injection H2 as <-. constructor; [|now apply IH].
    unfold DotPlot.entry_info in Ed. unfold Histogram.entry_info in Eh.
    destruct (str_to_date off (creationDate e)) as [t|]; [|discriminate].
    destruct (entry_tag e) as [tg|]; [|discriminate].
    destruct (dict_get String.eqb tg cm) as [c|]; [|discriminate].
    injection Ed as <-. injection Eh as <-.
    cbn. unfold date_part. repeat split. ring.
Qed.

(** The two views parse the entries alike: the same origin and, dot by
    dot, the same color, tag and day, while the histogram's [y_value] is the
    dot plot's plus the day. *)
Theorem views_dots_agree off cm entries dots x_0 dots' x_0' :
  DotPlot.parse_entries off cm entries = Some (dots, x_0) ->
  Histogram.parse_entries off cm entries = Some (dots', x_0') ->
  x_0' = x_0 /\
  Forall2 (fun d d' => color d' = color d /\ tag d' = tag d /\ x_value d' = x_value d /\
                       y_value d' = y_value d + x_value d) dots dots'.
Proof.
  unfold DotPlot.parse_entries, Histogram.parse_entries.
  destruct (min_by_creationDate entries) as [earliest|]; [|discriminate].
  destruct (str_to_date off (creationDate earliest)) as [x|]; [|discriminate].
  destruct (map_option (DotPlot.entry_info off cm x) entries) as [l|] eqn:E1; [|discriminate].
  destruct (map_option (Histogram.entry_info off cm x) entries) as [l'|] eqn:E2; [|discriminate].
  intros H1 H2. injection H1 as <- <-. injection H2 as <- <-.
  split; [reflexivity|]. exact (entry_info_agree _ _ _ _ _ _ E1 E2).
Qed.

(** ** Witnesses *)

Lemma find_tags_spec_witness :
  find_tags entries_sample = Some ["home"; "none"; "work"]%string /\
  In "none"%string ["home"; "none"; "work"]%string.
Proof.
  split; [reflexivity|].
  exact (proj1 (proj2 (find_tags_spec entries_sample _ eq_refl))).
Defined.

Lemma find_tags_permutation_witness :
  find_tags entries_sample = find_tags (rev entries_sample).
Proof.
  apply find_tags_permutation. apply Permutation_rev.
Defined.

Lemma calc_color_map_keys_witness :
  map fst (calc_color_map ["home"; "none"; "work"]%string) = ["home"; "work"; "none"]%string.
Proof.
  apply (calc_color_map_keys ["home"; "none"; "work"]%string).
  repeat (apply NoDup_cons; [simpl; intros H; repeat destruct H as [H|H];
                             [discriminate ..|destruct H]|]).
  apply NoDup_nil.
Defined.

Lemma min_by_creationDate_first_witness :
  exists pre post, entries_sample = pre ++ mkEntry "2024-01-14T03:00:00Z" None :: post /\
    Forall (fun x => String.ltb "2024-01-14T03:00:00Z" (creationDate x) = true) pre /\
    Forall (fun x => String.ltb (creationDate x) "2024-01-14T03:00:00Z" = false) post.
Proof.
  apply (min_by_creationDate_first entries_sample). reflexivity.
Defined.

Lemma plot_histogram_stacks_witness :
  exists bars,
    Histogram.plot_histogram (calc_color_map ["none"; "work"]%string)
      [("none", [(0, 1%nat); (3600, 0%nat)]); ("work", [(0, 2%nat); (3600, 5%nat)])]%string
      = Some bars /\
    Forall2 (bar_of (calc_color_map ["none"; "work"]%string))
      [("none", [(0, 1%nat); (3600, 0%nat)]); ("work", [(0, 2%nat); (3600, 5%nat)])]%string bars /\
    forall i b, nth_error bars i = Some b ->
      Histogram.bar_bottom b = match firstn i bars with
                               | [] => None
                               | prev => Some (vsum 2 (map Histogram.bar_height prev))
                               end.
Proof.
  apply plot_histogram_stacks.
  - intros p Hp. simpl in Hp. repeat destruct Hp as [<-|Hp]; [reflexivity|reflexivity|destruct Hp].
  - intros p Hp. simpl in Hp. repeat destruct Hp as [<-|Hp]; [eexists; reflexivity|eexists; reflexivity|destruct Hp].
Defined.

Lemma plot_histogram_missing_color_witness :
  Histogram.plot_histogram (calc_color_map ["none"; "work"]%string)
    [("none", [(0, 1%nat)]); ("home", [(0, 2%nat)])]%string = None.
Proof.
  apply (plot_histogram_missing_color _ _ ("home", [(0, 2%nat)])%string).
  - simpl. auto.
  - reflexivity.
Defined.

Lemma histogram_stack_totals_witness :
  exists dots x_0 freq,
    find_tags entries_sample = Some ["home"; "none"; "work"]%string /\
    Histogram.parse_entries utc_minus_5 (calc_color_map ["home"; "none"; "work"]%string)
      entries_sample = Some (dots, x_0) /\
    Histogram.gen_hour_histogram_data ["home"; "none"; "work"]%string dots x_0 = Some freq /\
    exists bars,
      Histogram.plot_histogram (calc_color_map ["home"; "none"; "work"]%string) freq = Some bars /\
      vsum 25 (map Histogram.bar_height bars) =
        map (fun h => count_entries_at_hour utc_minus_5 h entries_sample) Histogram.hours25.
Proof.
  do 3 eexists.
  split; [vm_compute; reflexivity|]. split; [vm_compute; reflexivity|].
  split; [vm_compute; reflexivity|].
  destruct (histogram_stack_totals utc_minus_5 entries_sample ["home"; "none"; "work"]%string
              _ _ _ ltac:(vm_compute; reflexivity) ltac:(vm_compute; reflexivity)
              ltac:(vm_compute; reflexivity))
    as [bars [Hb [_ [_ [_ Hv]]]]].
  exists bars. split; [exact Hb|exact Hv].
Defined.

Lemma histogram_hour24_bar_hidden_witness :
  exists dots x_0 freq bars,
    Histogram.parse_entries utc_minus_5 (calc_color_map ["home"; "none"; "work"]%string)
      entries_sample = Some (dots, x_0) /\
    Histogram.gen_hour_histogram_data ["home"; "none"; "work"]%string dots x_0 = Some freq /\
    Histogram.plot_histogram (calc_color_map ["home"; "none"; "work"]%string) freq = Some bars /\
    Forall (fun b => forall k, In k (Histogram.bar_x b) ->
      k = int_day x_0 + 86400 -> Histogram.right x_0 < k - Histogram.bar_width / 2) bars.
Proof.
  do 4 eexists.
  split; [vm_compute; reflexivity|].
  match goal with
  | |- Histogram.gen_hour_histogram_data _ ?d ?x = _ /\ _ => pose (dots := d); pose (x_0 := x)
  end.
  split; [vm_compute; reflexivity|].
  match goal with |- Histogram.plot_histogram _ ?f = _ /\ _ => pose (freq := f) end.
  split; [vm_compute; reflexivity|].
  eapply Forall_impl;
    [|apply (histogram_hour24_bar_hidden ["home"; "none"; "work"]%string dots x_0 freq)].
  - intros b Hb k Hk. exact (proj2 (Hb k Hk)).
  - repeat (apply NoDup_cons; [simpl; intros H; repeat destruct H as [H|H];
                               [discriminate ..|destruct H]|]).
    apply NoDup_nil.
  - vm_compute; reflexivity.
  - vm_compute; reflexivity.
Defined.

Lemma dot_plot_y_in_range_witness :
  exists dots x_0,
    DotPlot.parse_entries utc_minus_5 (calc_color_map ["home"; "none"; "work"]%string)
      entries_sample = Some (dots, x_0) /\
    Forall (fun d => DotPlot.bottom x_0 <= y_value d < DotPlot.top x_0) dots.
Proof.
  do 2 eexists. split; [vm_compute; reflexivity|].
  apply (dot_plot_y_in_range utc_minus_5 (calc_color_map ["home"; "none"; "work"]%string)
           entries_sample). vm_compute; reflexivity.
Defined.

Lemma dot_legend_matches_dots_witness :
  exists dots x_0,
    DotPlot.parse_entries utc_minus_5 (calc_color_map ["home"; "none"; "work"]%string)
      entries_sample = Some (dots, x_0) /\
    Forall (fun d => In (DotPlot.mkLine (color d) (tag d))
      (fst (DotPlot.add_dot_legend (calc_color_map ["home"; "none"; "work"]%string)))) dots.
Proof.
  do 2 eexists. split; [vm_compute; reflexivity|].
  refine (proj2 (proj2 (proj2 (dot_legend_matches_dots utc_minus_5 entries_sample
            ["home"; "none"; "work"]%string _ _ _ _))));
    vm_compute; reflexivity.
Defined.

Lemma views_dots_agree_witness :
  exists dots x_0 dots' x_0',
    DotPlot.parse_entries utc_minus_5 (calc_color_map ["home"; "none"; "work"]%string)
      entries_sample = Some (dots, x_0) /\
    Histogram.parse_entries utc_minus_5 (calc_color_map ["home"; "none"; "work"]%string)
      entries_sample = Some (dots', x_0') /\
    x_0' = x_0.
Proof.
  do 4 eexists. split; [vm_compute; reflexivity|]. split; [vm_compute; reflexivity|].
  refine (proj1 (views_dots_agree utc_minus_5 (calc_color_map ["home"; "none"; "work"]%string)
                   entries_sample _ _ _ _ _ _)); vm_compute; reflexivity.
Defined.
